(** * Metrics agent for GPU nodes: a shallow embedding of
    [scripts/metrics-agent.py] and the properties of its samplers and of its
    HTTP handler.

    The file has three parts: the Python built-ins the script relies on
    ([str.strip], [str.split], [int], integer true division, [round]), the
    script itself, function by function and under the names it uses, and
    the theorems.

    Conventions of the embedding.
    - A Python [str] is a [string]; a character is a code point below 256.
    - A Python [int] is a [Z].
    - A finite [float] is a dyadic rational, numerator over a power of two.
      The result of [round(x, 1)] is the double nearest to a decimal with
      one fractional digit; it is represented by that decimal, counted in
      tenths.
    - A call that may raise returns a [result]; [try]/[except] is a match on
      it.  What the script reads from the outside (the clock, psutil, the
      two external commands) is a field of the record [world]. *)

From Stdlib Require Import ZArith List String Ascii Bool Lia.
From Stdlib Require DecimalString DecimalPos.
Import ListNotations.

Local Open Scope string_scope.
Local Open Scope Z_scope.

(** ** Exceptions and results *)

(** The exceptions that can reach the script.  [OtherException] stands for
    any further subclass of [Exception], [OtherBaseException] for a class
    that derives from [BaseException] only. *)
Inductive exn : Type :=
| FileNotFoundError
| TimeoutExpired
| ValueError
| OverflowError
| OtherException (name : string)
| KeyboardInterrupt
| SystemExit
| OtherBaseException (name : string).

(** [isinstance(e, Exception)]: what [except Exception] catches. *)
Definition is_Exception (e : exn) : bool :=
  match e with
  | KeyboardInterrupt | SystemExit | OtherBaseException _ => false
  | _ => true
  end.

Inductive result (A : Type) : Type :=
| Ok (a : A)
| Raise (e : exn).

Arguments Ok {A} a.
Arguments Raise {A} e.

Definition bind {A B : Type} (r : result A) (k : A -> result B) : result B :=
  match r with
  | Ok a => k a
  | Raise e => Raise e
  end.

Notation "x <- r ;; k" := (bind r (fun x => k))
  (at level 61, r at next level, right associativity).
Notation "' pat <- r ;; k" := (bind r (fun x => let 'pat := x in k))
  (at level 61, pat pattern, r at next level, right associativity).

(** ** Characters and strings *)

Definition code (c : ascii) : Z := Z.of_N (N_of_ascii c).

(** [str.isspace] on one character below 256: tab to carriage return, the
    four separators 0x1c to 0x1f, space, NEL and the no-break space. *)
Definition isspace (c : ascii) : bool :=
  let n := code c in
  ((9 <=? n) && (n <=? 13)) || ((28 <=? n) && (n <=? 32))
  || (n =? 133) || (n =? 160).

Fixpoint lstrip (s : string) : string :=
  match s with
  | EmptyString => EmptyString
  | String c r => if isspace c then lstrip r else s
  end.

Fixpoint rstrip (s : string) : string :=
  match s with
  | EmptyString => EmptyString
  | String c r =>
      match rstrip r with
      | EmptyString => if isspace c then EmptyString else String c EmptyString
      | r' => String c r'
      end
  end.

(** [s.strip()] *)
Definition strip (s : string) : string := rstrip (lstrip s).

(** [s.split(sep)] for a separator of one character: every occurrence
    splits, empty pieces are kept, the result is never empty. *)
Fixpoint split (sep : ascii) (s : string) : list string :=
  match s with
  | EmptyString => [EmptyString]
  | String c r =>
      if Ascii.eqb c sep then EmptyString :: split sep r
      else match split sep r with
           | [] => [String c EmptyString]
           | w :: ws => String c w :: ws
           end
  end.

(** Truth value of a string: [if line:] *)
Definition truthy (s : string) : bool :=
  match s with
  | EmptyString => false
  | String _ _ => true
  end.

(** ** [int(s)] *)

Definition digit_value (c : ascii) : option Z :=
  let n := code c in
  if (48 <=? n) && (n <=? 57) then Some (n - 48) else None.

(** Digits with single underscores between them.  [after_sep] says that the
    previous position was the start or an underscore, where neither an
    underscore nor the end may follow.  Returns the value and the number of
    digits read. *)
Fixpoint digits (s : string) (acc : Z) (count : Z) (after_sep : bool)
  : option (Z * Z) :=
  match s with
  | EmptyString => if after_sep then None else Some (acc, count)
  | String c r =>
      if Ascii.eqb c "_"%char then
        if after_sep then None else digits r acc count true
      else
        match digit_value c with
        | Some d => digits r (10 * acc + d) (count + 1) false
        | None => None
        end
  end.

(** The white space [int] skips around the literal: the C white space, and
    the code points above 127 that are Unicode white space. *)
Definition int_isspace (c : ascii) : bool :=
  let n := code c in
  ((9 <=? n) && (n <=? 13)) || (n =? 32) || (n =? 133) || (n =? 160).

Fixpoint int_lskip (s : string) : string :=
  match s with
  | EmptyString => EmptyString
  | String c r => if int_isspace c then int_lskip r else s
  end.

Fixpoint int_rskip (s : string) : string :=
  match s with
  | EmptyString => EmptyString
  | String c r =>
      match int_rskip r with
      | EmptyString =>
          if int_isspace c then EmptyString else String c EmptyString
      | r' => String c r'
      end
  end.

Section Int.

(** [sys.get_int_max_str_digits()]: 0 where the interpreter has no limit
    on the length of a decimal literal, 4300 by default where it has. *)
Variable max_str_digits : Z.

(** [int(s)], base 10: white space, an optional sign, digits.  A literal
    of more than 640 digits is refused when it exceeds the limit. *)
Definition py_int (s : string) : result Z :=
  let t := int_rskip (int_lskip s) in
  let '(negative, body) :=
    match t with
    | String "+"%char r => (false, r)
    | String "-"%char r => (true, r)
    | _ => (false, t)
    end in
  match digits body 0 0 true with
  | None => Raise ValueError
  | Some (v, count) =>
      if (640 <? count) && (0 <? max_str_digits)
         && (max_str_digits <? count)
      then Raise ValueError
      else Ok (if negative then - v else v)
  end.

End Int.

(** ** Floats *)

(** A finite double, [fnum / 2 ^ flog]. *)
Record float : Type := mkFloat { fnum : Z; flog : Z }.

(** Nearest integer to [a / b], ties to even, for [0 < b]. *)
Definition rne_div (a b : Z) : Z :=
  let q := a / b in
  let r := a mod b in
  if 2 * r <? b then q
  else if b <? 2 * r then q + 1
  else if Z.even q then q else q + 1.

(** [n] rounded to 53 significant bits, ties to even. *)
Definition round53 (n : Z) : Z :=
  let a := Z.abs n in
  if a <? 2 ^ 53 then n
  else
    let k := Z.log2 a - 52 in
    Z.sgn n * (rne_div a (2 ^ k) * 2 ^ k).

(** Largest finite double, [(2 ^ 53 - 1) * 2 ^ 971]. *)
Definition DBL_MAX : Z := (2 ^ 53 - 1) * 2 ^ 971.

(** [n / d] on integers, for a divisor that is a power of two, as are the
    two the script divides by: the correctly rounded quotient,
    [OverflowError] when it is beyond the doubles. *)
Definition int_truediv (n d : Z) : result float :=
  let v := round53 n in
  if DBL_MAX * d <? Z.abs v then Raise OverflowError
  else Ok (mkFloat v (Z.log2 d)).

(** [round(x, 1)], in tenths: the decimal with one fractional digit nearest
    to [x], ties to even; the float returned is the double nearest to it. *)
Definition round1 (x : float) : Z := rne_div (10 * fnum x) (2 ^ flog x).

(** [round(x)]: the nearest integer, ties to even. *)
Definition round0 (x : float) : Z := rne_div (fnum x) (2 ^ flog x).

(** A number in the snapshot: an [int], or a float that [round(_, 1)]
    returned, given in tenths. *)
Inductive number : Type :=
| Int (n : Z)
| Tenths (t : Z).

(** Ten times the value of a number. *)
Definition tenths_of (x : number) : Z :=
  match x with
  | Int n => 10 * n
  | Tenths t => t
  end.

Definition number_is_zero (x : number) : bool := tenths_of x =? 0.

(** The order of the decimals; rounding to the nearest double keeps it. *)
Definition number_le (x y : number) : Prop := tenths_of x <= tenths_of y.

(** ** The script *)

Definition LF : ascii := "010"%char.

(** What [subprocess.run(..., capture_output=True, text=True, timeout=10)]
    did: it raised (command not found, timeout, ...), or the command ran to
    its end with a return code and its standard output as text. *)
Inductive CompletedProcess : Type :=
| run_raised (e : exn)
| completed (returncode : Z) (stdout : string).

(** The fields the script reads of [psutil.virtual_memory()] and of
    [psutil.disk_usage(path)]. *)
Record usage : Type := mkUsage { used : Z; total : Z }.

(** What one request finds outside the process. *)
Record world : Type := mkWorld {
  utcnow_isoformat : string;
  psutil_cpu_percent : result float;
  psutil_virtual_memory : result usage;
  psutil_disk_usage : string -> result usage;
  run_nvidia_smi : CompletedProcess;
  run_docker_ps : CompletedProcess
}.

Record GpuMetric : Type := mkGpuMetric {
  index : Z;
  name : string;
  utilization_percent : Z;
  memory_used_gb : number;
  memory_total_gb : number;
  temperature_c : Z
}.

Record SystemMetrics : Type := mkSystemMetrics {
  cpu_percent : Z;
  ram_used_gb : number;
  ram_total_gb : number;
  disk_used_gb : number;
  disk_total_gb : number
}.

Record Containers : Type := mkContainers { running : Z }.

Record Snapshot : Type := mkSnapshot {
  timestamp : string;
  system : SystemMetrics;
  gpus : list GpuMetric;
  containers : Containers
}.

(** [parts[i]] *)
Definition getitem (parts : list string) (i : nat) : result string :=
  match nth_error parts i with
  | Some p => Ok p
  | None => Raise (OtherException "IndexError")
  end.

Definition NA : string := "[N/A]".

(** Lines printed on standard output, one per caught exception:
    [Error getting GPU metrics: {e}]. *)
Definition printed : Type := list exn.

Section Agent.

Variable max_str_digits : Z.

Local Abbreviation int := (py_int max_str_digits).

(** [int(p) if p != '[N/A]' else 0] *)
Definition int_or_zero (p : string) : result Z :=
  if negb (String.eqb p NA) then int p else Ok 0.

(** [round(int(p) / 1024, 1) if p != '[N/A]' else 0] *)
Definition gb_or_zero (p : string) : result number :=
  if negb (String.eqb p NA) then
    n <- int p ;;
    x <- int_truediv n 1024 ;;
    Ok (Tenths (round1 x))
  else Ok (Int 0).

(** The dictionary appended for one line, its entries evaluated in the
    order they are written. *)
Definition gpu_entry (parts : list string) : result GpuMetric :=
  p0 <- getitem parts 0 ;;
  i <- int p0 ;;
  p1 <- getitem parts 1 ;;
  p2 <- getitem parts 2 ;;
  u <- int_or_zero p2 ;;
  p3 <- getitem parts 3 ;;
  mu <- gb_or_zero p3 ;;
  p4 <- getitem parts 4 ;;
  mt <- gb_or_zero p4 ;;
  p5 <- getitem parts 5 ;;
  t <- int_or_zero p5 ;;
  Ok (mkGpuMetric i p1 u mu mt t).

(** [[p.strip() for p in line.split(',')]] *)
Definition parts_of (line : string) : list string :=
  map strip (split ","%char line).

(** The [for] loop over the lines.  [gpus] is the list built so far; an
    exception ends the loop and leaves the list as it is. *)
Fixpoint gpu_loop (lines : list string) (gpus : list GpuMetric)
  : list GpuMetric * result unit :=
  match lines with
  | [] => (gpus, Ok tt)
  | line :: rest =>
      if truthy line then
        let parts := parts_of line in
        if (6 <=? Z.of_nat (List.length parts)) then
          match gpu_entry parts with
          | Ok g => gpu_loop rest (gpus ++ [g])
          | Raise e => (gpus, Raise e)
          end
        else gpu_loop rest gpus
      else gpu_loop rest gpus
  end.

(** The body of the [try]. *)
Definition gpu_try (res : CompletedProcess)
  : list GpuMetric * result unit :=
  match res with
  | run_raised e => ([], Raise e)
  | completed returncode stdout =>
      if returncode =? 0 then gpu_loop (split LF (strip stdout)) []
      else ([], Ok tt)
  end.

(** [get_gpu_metrics()]: [except Exception] prints and falls through to
    [return gpus]; any other exception leaves the function. *)
Definition get_gpu_metrics (w : world)
  : result (list GpuMetric * printed) :=
  let '(gpus, r) := gpu_try (run_nvidia_smi w) in
  match r with
  | Ok _ => Ok (gpus, [])
  | Raise e => if is_Exception e then Ok (gpus, [e]) else Raise e
  end.

(** [round(n / (1024**3), 1)] *)
Definition gb_of_bytes (n : Z) : result number :=
  x <- int_truediv n (1024 ^ 3) ;;
  Ok (Tenths (round1 x)).

(** [get_system_metrics()]: no [try]. *)
Definition get_system_metrics (w : world) : result SystemMetrics :=
  cpu <- psutil_cpu_percent w ;;
  mem <- psutil_virtual_memory w ;;
  ram_used <- gb_of_bytes (used mem) ;;
  ram_total <- gb_of_bytes (total mem) ;;
  disk <- psutil_disk_usage w "/" ;;
  disk_used <- gb_of_bytes (used disk) ;;
  disk_total <- gb_of_bytes (total disk) ;;
  Ok (mkSystemMetrics (round0 cpu) ram_used ram_total disk_used disk_total).

(** The body of the [try] of the container counter; falling off its end
    is [None]. *)
Definition container_try (res : CompletedProcess) : result (option Z) :=
  match res with
  | run_raised e => Raise e
  | completed returncode stdout =>
      if returncode =? 0 then
        Ok (Some (Z.of_nat
                    (List.length (filter truthy (split LF (strip stdout))))))
      else Ok None
  end.

(** [get_container_count()]: a bare [except] that passes, then
    [return 0]. *)
Definition get_container_count (w : world) : Z :=
  match container_try (run_docker_ps w) with
  | Ok (Some n) => n
  | Ok None => 0
  | Raise _ => 0
  end.

(** [collect_metrics()] *)
Definition collect_metrics (w : world) : result (Snapshot * printed) :=
  let ts := utcnow_isoformat w ++ "Z" in
  sys <- get_system_metrics w ;;
  '(g, out) <- get_gpu_metrics w ;;
  let n := get_container_count w in
  Ok (mkSnapshot ts sys g (mkContainers n), out).

(** What a handler writes to the socket: the JSON text of a snapshot
    ([json.dumps(metrics, indent=2).encode()]) or literal bytes. *)
Inductive payload : Type :=
| json_dumps (metrics : Snapshot)
| bytes (b : string).

(** The calls a request makes on the HTTP library, in order. *)
Inductive call : Type :=
| send_response (status : Z)
| send_header (keyword value : string)
| end_headers
| wfile_write (data : payload)
| send_error (status : Z).

(** [MetricsHandler.do_GET] *)
Definition do_GET (w : world) (path : string)
  : result (list call * printed) :=
  if String.eqb path "/metrics" || String.eqb path "/" then
    '(metrics, out) <- collect_metrics w ;;
    Ok ([send_response 200;
         send_header "Content-Type" "application/json";
         send_header "Access-Control-Allow-Origin" "*";
         end_headers;
         wfile_write (json_dumps metrics)], out)
  else if String.eqb path "/health" then
    Ok ([send_response 200;
         send_header "Content-Type" "text/plain";
         end_headers;
         wfile_write (bytes "OK")], [])
  else
    Ok ([send_response 404; end_headers], []).

(** [s.lstrip('/')] *)
Fixpoint lstrip_slash (s : string) : string :=
  match s with
  | EmptyString => EmptyString
  | String c r => if Ascii.eqb c "/"%char then lstrip_slash r else s
  end.

(** [s.startswith('//')] *)
Definition double_slash (s : string) : bool :=
  match s with
  | String a (String b _) => Ascii.eqb a "/"%char && Ascii.eqb b "/"%char
  | _ => false
  end.

(** What [BaseHTTPRequestHandler.parse_request], of the standard library,
    leaves in [self.path] for a request target: a target that starts with
    two slashes has its leading slashes reduced to one,
    [if self.path.startswith('//'): self.path = '/' + self.path.lstrip('/')]. *)
Definition parse_path (target : string) : string :=
  if double_slash target then String "/"%char (lstrip_slash target)
  else target.

(** The dispatch of [BaseHTTPRequestHandler.handle_one_request], which
    the handler class inherits from the standard library: the request is
    parsed, then the method [do_<command>] is called when the class has
    it, [send_error(501)] otherwise.  [MetricsHandler] has [do_GET] only.
    [path] is the target of the request line. *)
Definition handle_one_request (w : world) (command path : string)
  : result (list call * printed) :=
  if String.eqb command "GET" then do_GET w (parse_path path)
  else Ok ([send_error 501], []).

End Agent.

(** *** What a client sees of a list of calls *)

(** The status line: that of the first [send_response] or [send_error]. *)
Fixpoint status_of (calls : list call) : option Z :=
  match calls with
  | [] => None
  | send_response s :: _ => Some s
  | send_error s :: _ => Some s
  | _ :: rest => status_of rest
  end.

(** The headers the handler sets. *)
Fixpoint headers_of (calls : list call) : list (string * string) :=
  match calls with
  | [] => []
  | send_header k v :: rest => (k, v) :: headers_of rest
  | _ :: rest => headers_of rest
  end.

(** The body the handler writes. *)
Fixpoint body_of (calls : list call) : list payload :=
  match calls with
  | [] => []
  | wfile_write d :: rest => d :: body_of rest
  | _ :: rest => body_of rest
  end.

(** ** Definitions the statements use *)

(** A world for examples: psutil answers, the two commands are given. *)
Definition example_world (smi docker : CompletedProcess) : world :=
  mkWorld "2024-01-01T00:00:00"
          (Ok (mkFloat 25 1))
          (Ok (mkUsage (3 * 1024 ^ 3) (8 * 1024 ^ 3)))
          (fun _ => Ok (mkUsage (10 ^ 10) (10 ^ 11)))
          smi docker.

(** Two lines of text. *)
Definition two_lines (a b : string) : string := a ++ String LF b.

(** An output with a line that is no device line, two device lines, and a
    line cut short. *)
Definition mixed_output : string :=
  two_lines "GPU 0: no data"
            (two_lines "0, Tesla T4, 45, 2048, 16384, 60"
                       (two_lines "1, Tesla T4, [N/A]"
                                  "2, A100, 7, 512, 40960, 33")).

(** An output whose first device has no utilization counter. *)
Definition unsupported_output : string :=
  two_lines "0, Tesla K80, [Not Supported], 100, 11441, 40"
            "1, Tesla T4, 45, 2048, 16384, 60".

(** A world where only the device-query command is installed. *)
Definition gpu_world (stdout : string) : world :=
  example_world (completed 0 stdout) (run_raised FileNotFoundError).

(** A world where neither command is installed. *)
Definition bare_world : world :=
  example_world (run_raised FileNotFoundError) (run_raised FileNotFoundError).

(** A world where reading the virtual memory fails. *)
Definition no_memory_world : world :=
  mkWorld "2024-01-01T00:00:00" (Ok (mkFloat 25 1))
          (Raise (OtherException "OSError"))
          (fun _ => Ok (mkUsage (10 ^ 10) (10 ^ 11)))
          (run_raised FileNotFoundError) (run_raised FileNotFoundError).

(** The metric and the snapshot of a node with one Tesla T4. *)
Definition t4_line : string := "0, Tesla T4, 45, 2048, 16384, 60".

Definition t4_metric : GpuMetric :=
  mkGpuMetric 0 "Tesla T4" 45 (Tenths 20) (Tenths 160) 60.

Definition t4_snapshot : Snapshot :=
  mkSnapshot "2024-01-01T00:00:00Z"
             (mkSystemMetrics 12 (Tenths 30) (Tenths 80)
                              (Tenths 93) (Tenths 931))
             [t4_metric] (mkContainers 0).

(** A device line that reports more memory used than there is. *)
Definition overcommitted_line : string := "0, Tesla T4, 45, 2048, 1024, 60".

(** A line the loop takes for a device line: not empty, six fields or
    more. *)
Definition device_line (line : string) : bool :=
  truthy line && (6 <=? Z.of_nat (List.length (parts_of line))).

(** A parseable line is a device line whose entry evaluates. *)
Definition parse_line (max_str_digits : Z) (line : string)
  : option GpuMetric :=
  if device_line line then
    match gpu_entry max_str_digits (parts_of line) with
    | Ok g => Some g
    | Raise _ => None
    end
  else None.

(** One metric for each parseable line, in order: the sequence the sampler
    would return if every malformed line were dropped by itself. *)
Fixpoint one_per_parseable_line (max_str_digits : Z) (lines : list string)
  : list GpuMetric :=
  match lines with
  | [] => []
  | line :: rest =>
      match parse_line max_str_digits line with
      | Some g => g :: one_per_parseable_line max_str_digits rest
      | None => one_per_parseable_line max_str_digits rest
      end
  end.

(** The metrics of the device lines before the first one that fails, and
    the exception of that one. *)
Fixpoint until_first_failure (max_str_digits : Z) (lines : list string)
  : list GpuMetric * printed :=
  match lines with
  | [] => ([], [])
  | line :: rest =>
      if device_line line then
        match gpu_entry max_str_digits (parts_of line) with
        | Ok g =>
            let '(gs, out) := until_first_failure max_str_digits rest in
            (g :: gs, out)
        | Raise e => ([], [e])
        end
      else until_first_failure max_str_digits rest
  end.

(** The number of non-empty lines of a text, read character by character;
    [started] says that the line being read already has a character. *)
Fixpoint nonempty_lines (s : string) (started : bool) : Z :=
  match s with
  | EmptyString => if started then 1 else 0
  | String c r =>
      if Ascii.eqb c LF
      then (if started then 1 else 0) + nonempty_lines r false
      else nonempty_lines r true
  end.

(** The only white space of a text is its line feeds. *)
Fixpoint only_line_feeds (s : string) : bool :=
  match s with
  | EmptyString => true
  | String c r => (negb (isspace c) || Ascii.eqb c LF) && only_line_feeds r
  end.

(** An OS resource query of the system sampler fails. *)
Definition system_query_fails (w : world) : Prop :=
  (exists e, psutil_cpu_percent w = Raise e)
  \/ (exists e, psutil_virtual_memory w = Raise e)
  \/ (exists e, psutil_disk_usage w "/" = Raise e).

(** The invocation of a command failed: [subprocess.run] raised an error,
    or the command returned a code other than zero. *)
Definition invocation_failed (r : CompletedProcess) : Prop :=
  match r with
  | run_raised e => is_Exception e = true
  | completed returncode _ => returncode <> 0
  end.

(** The answer of the last branch of [do_GET]. *)
Definition not_found : result (list call * printed) :=
  Ok ([send_response 404; end_headers], []).

(** ** Definitions for the further properties *)

(** [str(n)] on an integer: its decimal numeral. *)
Definition str (n : Z) : string :=
  DecimalString.NilZero.string_of_int (Z.to_int n).

(** [sep.join(items)] *)
Fixpoint join (sep : string) (items : list string) : string :=
  match items with
  | [] => EmptyString
  | [x] => x
  | x :: rest => x ++ sep ++ join sep rest
  end.

(** The text has no character [c]. *)
Fixpoint lacks (c : ascii) (s : string) : bool :=
  match s with
  | EmptyString => true
  | String x r => negb (Ascii.eqb x c) && lacks c r
  end.

(** The text is white space only; the empty text is. *)
Fixpoint blank (s : string) : bool :=
  match s with
  | EmptyString => true
  | String x r => isspace x && blank r
  end.

(** The text has no white space. *)
Fixpoint spaceless (s : string) : bool :=
  match s with
  | EmptyString => true
  | String x r => negb (isspace x) && spaceless r
  end.

(** The text starts with a character that is no white space. *)
Definition starts_tight (s : string) : bool :=
  match s with
  | EmptyString => false
  | String x _ => negb (isspace x)
  end.

(** The text ends with a character that is no white space. *)
Fixpoint ends_tight (s : string) : bool :=
  match s with
  | EmptyString => false
  | String x EmptyString => negb (isspace x)
  | String _ r => ends_tight r
  end.

(** The text has no decimal digit. *)
Fixpoint digitless (s : string) : bool :=
  match s with
  | EmptyString => true
  | String x r =>
      match digit_value x with
      | Some _ => false
      | None => digitless r
      end
  end.

(** The numeral of [n] has at most 640 characters, so that no limit on the
    length of literals applies to it. *)
Definition short_numeral (n : Z) : Prop :=
  (String.length (str n) <= 640)%nat.

(** What the device-query command knows of one device.  A reading it does
    not have is [None]; it prints it as [[N/A]]. *)
Record device : Type := mkDevice {
  dev_index : Z;
  dev_name : string;
  dev_utilization : option Z;
  dev_memory_used : option Z;
  dev_memory_total : option Z;
  dev_temperature : option Z
}.

Definition show_reading (r : option Z) : string :=
  match r with
  | Some n => str n
  | None => NA
  end.

(** A line of [--format=csv,noheader,nounits]: the six fields, separated by
    a comma and a space. *)
Definition nvidia_smi_line (d : device) : string :=
  join ", " [str (dev_index d); dev_name d;
             show_reading (dev_utilization d);
             show_reading (dev_memory_used d);
             show_reading (dev_memory_total d);
             show_reading (dev_temperature d)].

(** The output for a list of devices: one line each. *)
Definition nvidia_smi_output (ds : list device) : string :=
  join (String LF EmptyString) (map nvidia_smi_line ds).

Definition reading_or_zero (r : option Z) : Z :=
  match r with
  | Some n => n
  | None => 0
  end.

(** MiB to GB with one decimal, in exact arithmetic. *)
Definition gb_of_mib (r : option Z) : number :=
  match r with
  | Some n => Tenths (rne_div (10 * n) 1024)
  | None => Int 0
  end.

(** The metric a device should give. *)
Definition metric_of_device (d : device) : GpuMetric :=
  mkGpuMetric (dev_index d) (strip (dev_name d))
              (reading_or_zero (dev_utilization d))
              (gb_of_mib (dev_memory_used d))
              (gb_of_mib (dev_memory_total d))
              (reading_or_zero (dev_temperature d)).

Definition short_reading (r : option Z) : Prop :=
  match r with
  | Some n => short_numeral n
  | None => True
  end.

Definition memory_reading (r : option Z) : Prop :=
  match r with
  | Some n => short_numeral n /\ Z.abs n < 2 ^ 53
  | None => True
  end.

(** A device the command can print on one line and the sampler can read
    back: a name without comma or line feed, and readings of ordinary
    size. *)
Definition printable (d : device) : Prop :=
  lacks ","%char (dev_name d) = true
  /\ lacks LF (dev_name d) = true
  /\ short_numeral (dev_index d)
  /\ short_reading (dev_utilization d)
  /\ memory_reading (dev_memory_used d)
  /\ memory_reading (dev_memory_total d)
  /\ short_reading (dev_temperature d).

(** [PORT = int(os.environ.get('METRICS_PORT', 9100))], given the value of
    the variable when it is set. *)
Definition PORT (max_str_digits : Z) (METRICS_PORT : option string)
  : result Z :=
  match METRICS_PORT with
  | Some s => py_int max_str_digits s
  | None => Ok 9100
  end.

(** A figure in GB is the non-negative decimal with one fractional digit
    nearest to a count of bytes: it is off by 0.05 GB at most. *)
Definition gb_figure_of_bytes (x : number) (n : Z) : Prop :=
  exists t, x = Tenths t /\ 0 <= t /\ 2 * Z.abs (1024 ^ 3 * t - 10 * n) <= 1024 ^ 3.

(** A count of bytes of ordinary size. *)
Definition byte_count (n : Z) : Prop := 0 <= n < 2 ^ 53.

(** Two devices, the second without utilization and total memory. *)
Definition two_devices : list device :=
  [mkDevice 0 "Tesla T4" (Some 45) (Some 2048) (Some 16384) (Some 60);
   mkDevice 1 "A100" None (Some 512) None (Some 33)].

(** A container id: it is not empty and has no white space. *)
Definition container_id (s : string) : Prop :=
  spaceless s = true /\ s <> EmptyString.

(** A node with two devices and three containers. *)
Definition busy_world : world :=
  example_world
    (completed 0 (nvidia_smi_output two_devices ++ String LF EmptyString))
    (completed 0 (join (String LF EmptyString)
                       ["3f2a9c01d7e4"; "b81c44e0a2f6"; "09d3e5a7c1b2"]
                  ++ String LF EmptyString)).

(** ** Properties of the HTTP handler *)

(** C9. Every GET request to [/health] is answered with status 200, the
    header [Content-Type: text/plain] and the body [OK], whatever the world
    is: no sampler and no external command is consulted. *)
Theorem health_always_ok :
  forall (max_str_digits : Z) (w : world),
    handle_one_request max_str_digits w "GET" "/health"
    = Ok ([send_response 200;
           send_header "Content-Type" "text/plain";
           end_headers;
           wfile_write (bytes "OK")], [])
    /\ (forall calls out,
          handle_one_request max_str_digits w "GET" "/health" = Ok (calls, out) ->
          status_of calls = Some 200
          /\ headers_of calls = [("Content-Type", "text/plain")]
          /\ body_of calls = [bytes "OK"]).
Proof.
  intros msd w. split; [reflexivity|].
  intros calls out H. cbn in H. injection H as <- <-. repeat split.
Qed.

Lemma do_GET_other :
  forall msd w path,
    String.eqb path "/metrics" = false ->
    String.eqb path "/" = false ->
    String.eqb path "/health" = false ->
    do_GET msd w path = not_found.
Proof.
  intros msd w path H1 H2 H3. unfold do_GET. rewrite H1, H2, H3. reflexivity.
Qed.


(** C2, as the code has it. For every GET request whose path, as the
    library hands it to the handler, is none of [/], [/metrics] and
    [/health], the server answers with status 404 and writes no body; the
    path handed over is the request target, except that leading slashes are
    reduced to one when the target starts with two.  For every other
    method, whatever the path, the handler is not called: the library
    answers 501. *)
Theorem unknown_path_get_404 :
  forall (max_str_digits : Z) (w : world),
    (forall path,
        parse_path path <> "/" -> parse_path path <> "/metrics" ->
        parse_path path <> "/health" ->
        handle_one_request max_str_digits w "GET" path = not_found)
    /\ (forall path,
          double_slash path = false ->
          path <> "/" -> path <> "/metrics" -> path <> "/health" ->
          handle_one_request max_str_digits w "GET" path = not_found)
    /\ (forall command path,
          command <> "GET" ->
          handle_one_request max_str_digits w command path
          = Ok ([send_error 501], []))
    /\ status_of [send_response 404; end_headers] = Some 404
    /\ body_of [send_response 404; end_headers] = []
    /\ status_of [send_error 501] = Some 501.
Proof.
  intros msd w.
  assert (G : forall path,
             parse_path path <> "/" -> parse_path path <> "/metrics" ->
             parse_path path <> "/health" ->
             handle_one_request msd w "GET" path = not_found).
  { intros path H1 H2 H3. unfold handle_one_request. cbn [String.eqb].
    change (String.eqb "GET" "GET") with true. cbv iota.
    apply do_GET_other; now apply String.eqb_neq. }
  split; [exact G|]. split.
  - intros path Hd H1 H2 H3. apply G; unfold parse_path; rewrite Hd;
      assumption.
  - split; [|repeat split].
    intros command path Hc. unfold handle_one_request.
    apply String.eqb_neq in Hc. rewrite Hc. reflexivity.
Qed.

Lemma unknown_path_get_404_witness :
  "/unknown" <> "/" /\ "/unknown" <> "/metrics" /\ "/unknown" <> "/health"
  /\ "PUT" <> "GET"
  /\ handle_one_request 4300 bare_world "GET" "/unknown" = not_found
  /\ handle_one_request 4300 bare_world "PUT" "/metrics"
     = Ok ([send_error 501], []).
Proof.
  assert (H1 : "/unknown" <> "/") by discriminate.
  assert (H2 : "/unknown" <> "/metrics") by discriminate.
  assert (H3 : "/unknown" <> "/health") by discriminate.
  assert (H4 : "PUT" <> "GET") by discriminate.
  pose proof (unknown_path_get_404 4300 bare_world) as (_ & G & P & _).
  split; [exact H1|]. split; [exact H2|]. split; [exact H3|].
  split; [exact H4|]. split.
  - exact (G "/unknown" eq_refl H1 H2 H3).
  - exact (P "PUT" "/metrics" H4).
Defined.

(** C2, as stated, fails: a POST to an unknown path is answered by the
    library with 501, not with 404; and a GET of [//metrics], a target
    that is none of the three paths, is served as [/metrics] with 200. *)
Lemma unknown_path_post_501 :
  "/unknown" <> "/" /\ "/unknown" <> "/metrics" /\ "/unknown" <> "/health"
  /\ handle_one_request 4300 bare_world "POST" "/unknown"
     = Ok ([send_error 501], [])
  /\ status_of [send_error 501] = Some 501
  /\ status_of [send_error 501] <> Some 404
  /\ "//metrics" <> "/" /\ "//metrics" <> "/metrics"
  /\ "//metrics" <> "/health"
  /\ handle_one_request 4300 bare_world "GET" "//metrics"
     = handle_one_request 4300 bare_world "GET" "/metrics"
  /\ (exists calls out,
         handle_one_request 4300 bare_world "GET" "//metrics"
         = Ok (calls, out)
         /\ status_of calls = Some 200).
Proof.
  split; [discriminate|]. split; [discriminate|]. split; [discriminate|].
  split; [reflexivity|]. split; [reflexivity|]. split; [discriminate|].
  split; [discriminate|]. split; [discriminate|]. split; [discriminate|].
  split; [reflexivity|].
  eexists. eexists. split; reflexivity.
Qed.

(** ** Rounding *)

Lemma rne_div_nearest :
  forall a b, 0 < b -> 2 * Z.abs (b * rne_div a b - a) <= b.
Proof.
  intros a b Hb. unfold rne_div.
  pose proof (Z.div_mod a b ltac:(lia)) as Hdm.
  pose proof (Z.mod_pos_bound a b Hb) as Hr.
  destruct (2 * (a mod b) <? b) eqn:E1; [apply Z.ltb_lt in E1; lia|].
  apply Z.ltb_ge in E1.
  destruct (b <? 2 * (a mod b)) eqn:E2; [apply Z.ltb_lt in E2; lia|].
  apply Z.ltb_ge in E2.
  destruct (Z.even (a / b)); lia.
Qed.

Lemma round53_small : forall n, Z.abs n < 2 ^ 53 -> round53 n = n.
Proof.
  intros n H. unfold round53.
  destruct (Z.abs n <? 2 ^ 53) eqn:E; [reflexivity|].
  apply Z.ltb_ge in E. lia.
Qed.

Lemma int_NA : forall msd, py_int msd NA = Raise ValueError.
Proof. reflexivity. Qed.

Lemma gb_or_zero_exact :
  forall msd p n,
    py_int msd p = Ok n -> Z.abs n < 2 ^ 53 ->
    gb_or_zero msd p = Ok (Tenths (rne_div (10 * n) 1024)).
Proof.
  intros msd p n Hp Hn. unfold gb_or_zero.
  destruct (String.eqb p NA) eqn:E.
  - apply String.eqb_eq in E. subst p. rewrite int_NA in Hp. discriminate.
  - cbn [negb]. rewrite Hp. cbn [bind]. unfold int_truediv.
    rewrite (round53_small n Hn).
    destruct (DBL_MAX * 1024 <? Z.abs n) eqn:E2.
    + apply Z.ltb_lt in E2.
      assert (2 ^ 53 <= DBL_MAX * 1024) by (vm_compute; discriminate). lia.
    + reflexivity.
Qed.

(** ** The GPU sampler on one line *)

(** C4. The line [0, Tesla T4, 45, 2048, 16384, 60] gives the metric with
    index 0, name [Tesla T4], utilization 45, 2.0 GB used, 16.0 GB in total
    and temperature 60; a memory field of [n] MiB becomes the decimal with
    one fractional digit nearest to [n / 1024]. *)
Theorem tesla_t4_line :
  forall (max_str_digits : Z) (ts : string) (cpu : result float)
         (vm : result usage) (du : string -> result usage)
         (docker : CompletedProcess),
    let t4 := mkGpuMetric 0 "Tesla T4" 45 (Tenths 20) (Tenths 160) 60 in
    get_gpu_metrics max_str_digits
      (mkWorld ts cpu vm du
               (completed 0 "0, Tesla T4, 45, 2048, 16384, 60") docker)
    = Ok ([t4], [])
    /\ get_gpu_metrics max_str_digits
         (mkWorld ts cpu vm du
                  (completed 0 ("0, Tesla T4, 45, 2048, 16384, 60"
                                ++ String LF EmptyString)) docker)
       = Ok ([t4], [])
    /\ (forall p n,
          py_int max_str_digits p = Ok n -> Z.abs n < 2 ^ 53 ->
          exists t,
            gb_or_zero max_str_digits p = Ok (Tenths t)
            /\ 2 * Z.abs (1024 * t - 10 * n) <= 1024).
Proof.
  intros msd ts cpu vm du docker t4. split; [reflexivity|].
  split; [reflexivity|].
  intros p n Hp Hn. exists (rne_div (10 * n) 1024). split.
  - exact (gb_or_zero_exact msd p n Hp Hn).
  - apply rne_div_nearest. lia.
Qed.

(** ** The system sampler *)

(** C5. The system sampler has no handler: when the CPU, the virtual
    memory or the root file system query fails, the sampler raises, and so
    do the snapshot assembler and the GET handler of [/metrics] and [/];
    the exception of a failed CPU query is the one that comes out. *)
Theorem system_failure_propagates :
  forall (max_str_digits : Z) (w : world),
    system_query_fails w ->
    (exists e,
        get_system_metrics w = Raise e
        /\ collect_metrics max_str_digits w = Raise e
        /\ handle_one_request max_str_digits w "GET" "/metrics" = Raise e
        /\ handle_one_request max_str_digits w "GET" "/" = Raise e)
    /\ (forall e, psutil_cpu_percent w = Raise e ->
                  get_system_metrics w = Raise e).
Proof.
  intros msd w Hf. split.
  - assert (H : exists e, get_system_metrics w = Raise e).
    { unfold get_system_metrics.
      destruct (psutil_cpu_percent w) as [cpu|e1] eqn:E1; [|now exists e1].
      destruct (psutil_virtual_memory w) as [mem|e2] eqn:E2; [|now exists e2].
      cbn [bind].
      destruct (gb_of_bytes (used mem)) as [a|e3]; [|now exists e3].
      destruct (gb_of_bytes (total mem)) as [b|e4]; [|now exists e4].
      cbn [bind].
      destruct (psutil_disk_usage w "/") as [disk|e5] eqn:E5; [|now exists e5].
      exfalso. destruct Hf as [[e H]|[[e H]|[e H]]]; congruence. }
    destruct H as [e He]. exists e. split; [exact He|].
    assert (Hc : collect_metrics msd w = Raise e).
    { unfold collect_metrics. rewrite He. reflexivity. }
    split; [exact Hc|].
    split; cbn; rewrite Hc; reflexivity.
  - intros e He. unfold get_system_metrics. rewrite He. reflexivity.
Qed.

Lemma system_failure_propagates_witness :
  system_query_fails no_memory_world
  /\ exists e,
      get_system_metrics no_memory_world = Raise e
      /\ collect_metrics 4300 no_memory_world = Raise e
      /\ handle_one_request 4300 no_memory_world "GET" "/metrics" = Raise e
      /\ handle_one_request 4300 no_memory_world "GET" "/" = Raise e.
Proof.
  assert (H : system_query_fails no_memory_world).
  { right. left. exists (OtherException "OSError"). reflexivity. }
  split; [exact H|].
  exact (proj1 (system_failure_propagates 4300 no_memory_world H)).
Defined.

(** ** The GPU sampler when the command fails *)

(** C6. When the device-query command is not found, times out, raises any
    other error or returns a code other than zero, the GPU sampler returns
    the empty sequence; it raises nothing. *)
Theorem gpu_failure_empty :
  forall (max_str_digits : Z) (w : world),
    invocation_failed (run_nvidia_smi w) ->
    exists out, get_gpu_metrics max_str_digits w = Ok ([], out).
Proof.
  intros msd w H. unfold get_gpu_metrics, gpu_try.
  destruct (run_nvidia_smi w) as [e|rc stdout]; cbn in H.
  - rewrite H. now exists [e].
  - destruct (rc =? 0) eqn:E; [apply Z.eqb_eq in E; contradiction|].
    now exists [].
Qed.

Lemma gpu_failure_empty_witness :
  invocation_failed (run_raised FileNotFoundError)
  /\ invocation_failed (run_raised TimeoutExpired)
  /\ invocation_failed (completed 9 "NVIDIA-SMI has failed")
  /\ (exists out,
         get_gpu_metrics 4300
           (example_world (run_raised FileNotFoundError)
                          (run_raised FileNotFoundError))
         = Ok ([], out))
  /\ (exists out,
         get_gpu_metrics 4300
           (example_world (completed 9 "NVIDIA-SMI has failed")
                          (run_raised FileNotFoundError))
         = Ok ([], out)).
Proof.
  assert (H1 : invocation_failed (run_raised FileNotFoundError))
    by reflexivity.
  assert (H2 : invocation_failed (run_raised TimeoutExpired))
    by reflexivity.
  assert (H3 : invocation_failed (completed 9 "NVIDIA-SMI has failed"))
    by (cbn; lia).
  split; [exact H1|]. split; [exact H2|]. split; [exact H3|]. split.
  - exact (gpu_failure_empty 4300
             (example_world (run_raised FileNotFoundError)
                            (run_raised FileNotFoundError)) H1).
  - exact (gpu_failure_empty 4300
             (example_world (completed 9 "NVIDIA-SMI has failed")
                            (run_raised FileNotFoundError)) H3).
Defined.

(** ** The container counter *)

Lemma split_cons : forall sep s, exists w ws, split sep s = w :: ws.
Proof.
  intros sep s. destruct s as [|c r]; cbn.
  - now exists EmptyString, [].
  - destruct (Ascii.eqb c sep).
    + now exists EmptyString, (split sep r).
    + destruct (split sep r) as [|w ws]; eauto.
Qed.

Lemma nonempty_lines_split :
  forall s started,
    nonempty_lines s started
    = (if started || truthy (hd EmptyString (split LF s)) then 1 else 0)
      + Z.of_nat (List.length (filter truthy (tl (split LF s)))).
Proof.
  induction s as [|c r IH]; intros started; cbn [nonempty_lines split].
  - cbn. destruct started; reflexivity.
  - destruct (Ascii.eqb c LF).
    + rewrite (IH false). cbn [hd tl truthy orb].
      rewrite Bool.orb_false_r.
      destruct (split_cons LF r) as (w & ws & E). rewrite E.
      cbn [hd tl filter]. destruct (truthy w); cbn [List.length]; lia.
    + rewrite (IH true).
      destruct (split_cons LF r) as (w & ws & E). rewrite E.
      cbn [hd tl truthy orb]. rewrite Bool.orb_true_r. reflexivity.
Qed.

Lemma count_lines_scan :
  forall s,
    Z.of_nat (List.length (filter truthy (split LF s)))
    = nonempty_lines s false.
Proof.
  intros s. rewrite nonempty_lines_split.
  destruct (split_cons LF s) as (w & ws & E). rewrite E.
  cbn [hd tl filter orb]. destruct (truthy w); cbn [List.length]; lia.
Qed.

Lemma isspace_LF : isspace LF = true.
Proof. reflexivity. Qed.

Lemma nonempty_lines_lstrip :
  forall s,
    only_line_feeds s = true ->
    only_line_feeds (lstrip s) = true
    /\ nonempty_lines (lstrip s) false = nonempty_lines s false.
Proof.
  induction s as [|c r IH]; intros H; [now split|].
  cbn [only_line_feeds] in H. apply andb_prop in H. destruct H as [Hc Hr].
  cbn [lstrip]. destruct (isspace c) eqn:Ec.
  - cbn [negb orb] in Hc. destruct (IH Hr) as [IH1 IH2]. split; [exact IH1|].
    cbn [nonempty_lines]. rewrite Hc. lia.
  - split; [|reflexivity]. cbn [only_line_feeds]. rewrite Ec, Hr. reflexivity.
Qed.

Lemma nonempty_lines_rstrip :
  forall s,
    only_line_feeds s = true ->
    forall started,
      nonempty_lines (rstrip s) started = nonempty_lines s started.
Proof.
  induction s as [|c r IH]; intros H started; [reflexivity|].
  cbn [only_line_feeds] in H. apply andb_prop in H. destruct H as [Hc Hr].
  specialize (IH Hr). cbn [rstrip].
  destruct (rstrip r) as [|c' r'] eqn:Er.
  - destruct (isspace c) eqn:Ec.
    + cbn [negb orb] in Hc. cbn [nonempty_lines]. rewrite Hc.
      rewrite <- (IH false). cbn. lia.
    + cbn [nonempty_lines].
      destruct (Ascii.eqb c LF) eqn:El.
      * apply Ascii.eqb_eq in El. subst c. rewrite isspace_LF in Ec.
        discriminate.
      * rewrite <- (IH true). reflexivity.
  - cbn [nonempty_lines]. destruct (Ascii.eqb c LF).
    + rewrite <- (IH false). reflexivity.
    + rewrite <- (IH true). reflexivity.
Qed.

(** C7, as the code has it. The container counter returns a non-negative
    integer and never raises: 0 when the command could not be run,
    whatever was raised, and when it returned a code other than zero; when
    it returned zero, the number of non-empty lines of its output, taken
    once the white space around the output is stripped, which is the
    number of non-empty lines of the output itself when the output has no
    white space but line feeds. *)
Theorem container_count_total :
  forall (w : world),
    0 <= get_container_count w
    /\ (forall e, run_docker_ps w = run_raised e -> get_container_count w = 0)
    /\ (forall returncode stdout,
          run_docker_ps w = completed returncode stdout ->
          returncode <> 0 -> get_container_count w = 0)
    /\ (forall stdout,
          run_docker_ps w = completed 0 stdout ->
          get_container_count w = nonempty_lines (strip stdout) false
          /\ (only_line_feeds stdout = true ->
              get_container_count w = nonempty_lines stdout false)).
Proof.
  intros w. unfold get_container_count, container_try.
  destruct (run_docker_ps w) as [e|rc stdout].
  - repeat split; try lia; intros; discriminate.
  - destruct (rc =? 0) eqn:E.
    + apply Z.eqb_eq in E. subst rc. split; [lia|].
      split; [intros; discriminate|]. split; [intros ? ? H1 H2; injection H1 as H1 _; lia|].
      intros stdout' H. injection H as <-.
      rewrite count_lines_scan. split; [reflexivity|].
      intros Hs. unfold strip.
      destruct (nonempty_lines_lstrip stdout Hs) as [H1 H2].
      rewrite (nonempty_lines_rstrip _ H1). exact H2.
    + apply Z.eqb_neq in E. split; [lia|].
      split; [intros; discriminate|]. split; [reflexivity|].
      intros stdout' H. injection H as H _. contradiction.
Qed.

(** C7, as stated, fails: the lines counted are those of the stripped
    output.  An output whose first line is a single space, followed by the
    line [abc], has two non-empty lines; the counter returns 1. *)
Lemma blank_first_line_not_counted :
  split LF (two_lines " " "abc") = [" "; "abc"]
  /\ filter truthy (split LF (two_lines " " "abc")) = [" "; "abc"]
  /\ nonempty_lines (two_lines " " "abc") false = 2
  /\ strip (two_lines " " "abc") = "abc"
  /\ get_container_count
       (example_world (run_raised FileNotFoundError)
                      (completed 0 (two_lines " " "abc"))) = 1.
Proof. repeat split. Qed.

(** ** Order and rounding *)

Lemma rne_div_exact : forall c b, 0 < b -> rne_div (c * b) b = c.
Proof.
  intros c b Hb. unfold rne_div.
  rewrite Z.div_mul by lia. rewrite Z.mod_mul by lia.
  destruct (2 * 0 <? b) eqn:E; [reflexivity|]. apply Z.ltb_ge in E. lia.
Qed.

Lemma rne_div_mono :
  forall a1 a2 b, 0 < b -> a1 <= a2 -> rne_div a1 b <= rne_div a2 b.
Proof.
  intros a1 a2 b Hb Ha. unfold rne_div.
  pose proof (Z.div_mod a1 b ltac:(lia)) as D1.
  pose proof (Z.div_mod a2 b ltac:(lia)) as D2.
  pose proof (Z.mod_pos_bound a1 b Hb) as R1.
  pose proof (Z.mod_pos_bound a2 b Hb) as R2.
  pose proof (Z.div_le_mono a1 a2 b Hb Ha) as Q.
  destruct (Z.eq_dec (a1 / b) (a2 / b)) as [Eq|Ne].
  - rewrite <- Eq in *.
    assert (Hr : a1 mod b <= a2 mod b) by lia.
    destruct (2 * (a1 mod b) <? b) eqn:E1;
      destruct (2 * (a2 mod b) <? b) eqn:E2;
      destruct (b <? 2 * (a1 mod b)) eqn:E3;
      destruct (b <? 2 * (a2 mod b)) eqn:E4;
      destruct (Z.even (a1 / b));
      rewrite ?Z.ltb_lt, ?Z.ltb_ge in *; lia.
  - destruct (2 * (a1 mod b) <? b);
      destruct (2 * (a2 mod b) <? b);
      destruct (b <? 2 * (a1 mod b));
      destruct (b <? 2 * (a2 mod b));
      destruct (Z.even (a1 / b));
      destruct (Z.even (a2 / b)); lia.
Qed.

(** Above [2 ^ 53] the rounded value stays in the binade of its argument. *)
Lemma round53_binade :
  forall a,
    2 ^ 53 <= a ->
    let k := Z.log2 a - 52 in
    0 < k
    /\ 2 ^ 52 * 2 ^ k <= a < 2 ^ 53 * 2 ^ k
    /\ 2 ^ 52 * 2 ^ k <= rne_div a (2 ^ k) * 2 ^ k <= 2 ^ 53 * 2 ^ k.
Proof.
  intros a Ha k.
  assert (Hpos : 0 < a) by (assert (0 < 2 ^ 53) by reflexivity; lia).
  pose proof (Z.log2_spec a Hpos) as Hs.
  assert (Hl : 53 <= Z.log2 a).
  { replace 53 with (Z.log2 (2 ^ 53)) by reflexivity.
    now apply Z.log2_le_mono. }
  assert (Hk : 0 < k) by (unfold k; lia).
  assert (Hp : 0 < 2 ^ k) by (apply Z.pow_pos_nonneg; lia).
  assert (E1 : 2 ^ Z.log2 a = 2 ^ 52 * 2 ^ k).
  { rewrite <- Z.pow_add_r by lia. f_equal. unfold k. lia. }
  assert (E2 : 2 ^ Z.succ (Z.log2 a) = 2 ^ 53 * 2 ^ k).
  { rewrite <- Z.pow_add_r by lia. f_equal. unfold k. lia. }
  rewrite E1, E2 in Hs.
  split; [exact Hk|]. split; [exact Hs|].
  pose proof (rne_div_mono (2 ^ 52 * 2 ^ k) a (2 ^ k) Hp ltac:(lia)) as L.
  pose proof (rne_div_mono a (2 ^ 53 * 2 ^ k) (2 ^ k) Hp ltac:(lia)) as U.
  rewrite rne_div_exact in L by exact Hp.
  rewrite rne_div_exact in U by exact Hp.
  split; apply Z.mul_le_mono_nonneg_r; lia.
Qed.

Lemma round53_of_large :
  forall a, 2 ^ 53 <= a ->
            round53 a = rne_div a (2 ^ (Z.log2 a - 52)) * 2 ^ (Z.log2 a - 52).
Proof.
  intros a Ha. unfold round53.
  assert (Hpos : 0 < a) by (assert (0 < 2 ^ 53) by reflexivity; lia).
  rewrite (Z.abs_eq a) by lia.
  destruct (a <? 2 ^ 53) eqn:E; [apply Z.ltb_lt in E; lia|].
  rewrite (Z.sgn_pos a Hpos). lia.
Qed.

Lemma round53_mono_nonneg :
  forall a1 a2, 0 <= a1 -> a1 <= a2 -> round53 a1 <= round53 a2.
Proof.
  intros a1 a2 H0 Hle.
  destruct (Z_lt_le_dec a2 (2 ^ 53)) as [S2|L2].
  - rewrite !round53_small by lia. exact Hle.
  - rewrite (round53_of_large a2 L2).
    destruct (round53_binade a2 L2) as (K2 & B2 & R2).
    destruct (Z_lt_le_dec a1 (2 ^ 53)) as [S1|L1].
    + rewrite round53_small by lia.
      assert (2 ^ 53 <= 2 ^ 52 * 2 ^ (Z.log2 a2 - 52)).
      { change (2 ^ 53) with (2 ^ 52 * 2 ^ 1).
        apply Z.mul_le_mono_nonneg_l; [now vm_compute|].
        apply Z.pow_le_mono_r; lia. }
      lia.
    + rewrite (round53_of_large a1 L1).
      destruct (round53_binade a1 L1) as (K1 & B1 & R1).
      assert (Hl : Z.log2 a1 <= Z.log2 a2) by now apply Z.log2_le_mono.
      destruct (Z.eq_dec (Z.log2 a1) (Z.log2 a2)) as [Eq|Ne].
      * rewrite Eq. apply Z.mul_le_mono_nonneg_r.
        -- apply Z.pow_nonneg. lia.
        -- apply rne_div_mono; [apply Z.pow_pos_nonneg; lia|exact Hle].
      * assert (2 ^ 53 * 2 ^ (Z.log2 a1 - 52)
                <= 2 ^ 52 * 2 ^ (Z.log2 a2 - 52)).
        { change (2 ^ 53) with (2 ^ 52 * 2 ^ 1).
          rewrite <- Z.mul_assoc. rewrite <- Z.pow_add_r by lia.
          apply Z.mul_le_mono_nonneg_l; [now vm_compute|].
          apply Z.pow_le_mono_r; lia. }
        lia.
Qed.

Lemma round53_opp : forall n, round53 (- n) = - round53 n.
Proof.
  intros n. unfold round53. rewrite Z.abs_opp, Z.sgn_opp.
  destruct (Z.abs n <? 2 ^ 53); lia.
Qed.

Lemma round53_mono : forall n1 n2, n1 <= n2 -> round53 n1 <= round53 n2.
Proof.
  intros n1 n2 H.
  destruct (Z_lt_le_dec n1 0) as [N1|P1]; destruct (Z_lt_le_dec n2 0) as [N2|P2].
  - pose proof (round53_mono_nonneg (- n2) (- n1) ltac:(lia) ltac:(lia)) as M.
    rewrite !round53_opp in M. lia.
  - pose proof (round53_mono_nonneg 0 (- n1) ltac:(lia) ltac:(lia)) as M1.
    pose proof (round53_mono_nonneg 0 n2 ltac:(lia) P2) as M2.
    rewrite round53_opp in M1. change (round53 0) with 0 in *. lia.
  - lia.
  - now apply round53_mono_nonneg.
Qed.

(** ** The entry of one device line *)

Lemma py_int_raises : forall msd s e, py_int msd s = Raise e -> e = ValueError.
Proof.
  intros msd s e. unfold py_int.
  destruct (match int_rskip (int_lskip s) with
            | String "+"%char r => (false, r)
            | String "-"%char r => (true, r)
            | _ => (false, int_rskip (int_lskip s))
            end) as [negative body].
  destruct (digits body 0 0 true) as [[v count]|]; [|congruence].
  destruct ((640 <? count) && (0 <? msd) && (msd <? count)); congruence.
Qed.

Lemma int_or_zero_raises :
  forall msd p e, int_or_zero msd p = Raise e -> e = ValueError.
Proof.
  intros msd p e. unfold int_or_zero.
  destruct (negb (String.eqb p NA)); [apply py_int_raises|discriminate].
Qed.

Lemma gb_or_zero_raises :
  forall msd p e,
    gb_or_zero msd p = Raise e -> e = ValueError \/ e = OverflowError.
Proof.
  intros msd p e. unfold gb_or_zero.
  destruct (negb (String.eqb p NA)); [|discriminate].
  destruct (py_int msd p) as [n|e1] eqn:E1; cbn [bind].
  - unfold int_truediv. destruct (DBL_MAX * 1024 <? Z.abs (round53 n)).
    + intros H. injection H as <-. now right.
    + discriminate.
  - intros H. injection H as <-. left. exact (py_int_raises _ _ _ E1).
Qed.

(** What a finished entry says of the fields of its line. *)
Lemma gpu_entry_Ok :
  forall msd parts g,
    gpu_entry msd parts = Ok g ->
    exists p0 p1 p2 p3 p4 p5 rest,
      parts = p0 :: p1 :: p2 :: p3 :: p4 :: p5 :: rest
      /\ py_int msd p0 = Ok (index g)
      /\ name g = p1
      /\ int_or_zero msd p2 = Ok (utilization_percent g)
      /\ gb_or_zero msd p3 = Ok (memory_used_gb g)
      /\ gb_or_zero msd p4 = Ok (memory_total_gb g)
      /\ int_or_zero msd p5 = Ok (temperature_c g).
Proof.
  intros msd parts g H. unfold gpu_entry, getitem in H.
  destruct parts as [|p0 parts]; cbn [nth_error bind] in H; [discriminate|].
  destruct (py_int msd p0) as [i|] eqn:E0; cbn [bind] in H; [|discriminate].
  destruct parts as [|p1 parts]; cbn [nth_error bind] in H; [discriminate|].
  destruct parts as [|p2 parts]; cbn [nth_error bind] in H; [discriminate|].
  destruct (int_or_zero msd p2) as [u|] eqn:E2; cbn [bind] in H;
    [|discriminate].
  destruct parts as [|p3 parts]; cbn [nth_error bind] in H; [discriminate|].
  destruct (gb_or_zero msd p3) as [mu|] eqn:E3; cbn [bind] in H;
    [|discriminate].
  destruct parts as [|p4 parts]; cbn [nth_error bind] in H; [discriminate|].
  destruct (gb_or_zero msd p4) as [mt|] eqn:E4; cbn [bind] in H;
    [|discriminate].
  destruct parts as [|p5 rest]; cbn [nth_error bind] in H; [discriminate|].
  destruct (int_or_zero msd p5) as [t|] eqn:E5; cbn [bind] in H;
    [|discriminate].
  injection H as <-. exists p0, p1, p2, p3, p4, p5, rest. cbn.
  repeat split; assumption.
Qed.

(** Whatever an entry raises is caught by [except Exception]. *)
Lemma gpu_entry_raises :
  forall msd parts e, gpu_entry msd parts = Raise e -> is_Exception e = true.
Proof.
  intros msd parts e H. unfold gpu_entry, getitem in H.
  repeat match type of H with
         | bind (match nth_error ?l ?i with _ => _ end) _ = _ =>
             destruct (nth_error l i); cbn [bind] in H
         | bind (py_int ?m ?p) _ = _ =>
             let E := fresh "E" in
             destruct (py_int m p) eqn:E; cbn [bind] in H;
             [|apply py_int_raises in E]
         | bind (int_or_zero ?m ?p) _ = _ =>
             let E := fresh "E" in
             destruct (int_or_zero m p) eqn:E; cbn [bind] in H;
             [|apply int_or_zero_raises in E]
         | bind (gb_or_zero ?m ?p) _ = _ =>
             let E := fresh "E" in
             destruct (gb_or_zero m p) eqn:E; cbn [bind] in H;
             [|apply gb_or_zero_raises in E; destruct E]
         | Raise _ = Raise _ => injection H as <-; subst; reflexivity
         | Ok _ = Raise _ => discriminate
         end.
Qed.



(** ** The loop over the lines *)

Lemma gpu_loop_until_first_failure :
  forall msd lines acc,
    gpu_loop msd lines acc
    = ((acc ++ fst (until_first_failure msd lines))%list,
       match snd (until_first_failure msd lines) with
       | [] => Ok tt
       | e :: _ => Raise e
       end).
Proof.
  intros msd. induction lines as [|line rest IH]; intros acc.
  - cbn. now rewrite app_nil_r.
  - cbn [gpu_loop until_first_failure]. unfold device_line.
    destruct (truthy line); cbn [andb]; [|apply IH].
    destruct (6 <=? Z.of_nat (List.length (parts_of line))); [|apply IH].
    destruct (gpu_entry msd (parts_of line)) as [g|e].
    + rewrite IH.
      destruct (until_first_failure msd rest) as [gs out]. cbn [fst snd].
      now rewrite <- app_assoc.
    + cbn. now rewrite app_nil_r.
Qed.

Lemma until_first_failure_printed :
  forall msd lines,
    snd (until_first_failure msd lines) = []
    \/ exists e, snd (until_first_failure msd lines) = [e]
                 /\ is_Exception e = true.
Proof.
  intros msd. induction lines as [|line rest IH]; [now left|].
  cbn [until_first_failure]. destruct (device_line line); [|exact IH].
  destruct (gpu_entry msd (parts_of line)) as [g|e] eqn:E.
  - destruct (until_first_failure msd rest) as [gs out]. exact IH.
  - right. exists e. split; [reflexivity|]. exact (gpu_entry_raises _ _ _ E).
Qed.

(** On a zero return code the sampler returns what the loop built. *)
Lemma get_gpu_metrics_completed :
  forall msd w stdout,
    run_nvidia_smi w = completed 0 stdout ->
    get_gpu_metrics msd w
    = Ok (until_first_failure msd (split LF (strip stdout))).
Proof.
  intros msd w stdout H. unfold get_gpu_metrics, gpu_try. rewrite H.
  cbn [Z.eqb]. rewrite gpu_loop_until_first_failure. cbn [app].
  destruct (until_first_failure_printed msd (split LF (strip stdout)))
    as [P|(e & P & Pe)];
    destruct (until_first_failure msd (split LF (strip stdout))) as [gs out];
    cbn [fst snd] in *; subst out; [reflexivity|].
  rewrite Pe. reflexivity.
Qed.

Lemma until_first_failure_filter :
  forall msd lines,
    until_first_failure msd (filter device_line lines)
    = until_first_failure msd lines.
Proof.
  intros msd. induction lines as [|line rest IH]; [reflexivity|].
  cbn [filter until_first_failure].
  destruct (device_line line) eqn:E; [|exact IH].
  cbn [until_first_failure]. rewrite E, IH. reflexivity.
Qed.

Lemma until_first_failure_all_parse :
  forall msd lines,
    (forall line, In line lines -> device_line line = true ->
                  exists g, gpu_entry msd (parts_of line) = Ok g) ->
    until_first_failure msd lines = (one_per_parseable_line msd lines, []).
Proof.
  intros msd. induction lines as [|line rest IH]; intros H; [reflexivity|].
  cbn [until_first_failure one_per_parseable_line]. unfold parse_line.
  assert (IH' := IH (fun l Hl => H l (or_intror Hl))).
  destruct (device_line line) eqn:E; [|exact IH'].
  destruct (H line (or_introl eq_refl) E) as [g Hg]. rewrite Hg, IH'.
  reflexivity.
Qed.

Lemma until_first_failure_In :
  forall msd lines g,
    In g (fst (until_first_failure msd lines)) ->
    exists line, In line lines /\ device_line line = true
                 /\ gpu_entry msd (parts_of line) = Ok g.
Proof.
  intros msd. induction lines as [|line rest IH]; intros g H; [destruct H|].
  cbn [until_first_failure] in H.
  destruct (device_line line) eqn:E.
  - destruct (gpu_entry msd (parts_of line)) as [g'|e] eqn:Eg.
    + destruct (until_first_failure msd rest) as [gs out].
      cbn [fst] in *. destruct H as [<-|H].
      * exists line. repeat split; [now left|exact E|exact Eg].
      * destruct (IH g H) as (l & Hl & Hd & Hg). exists l.
        repeat split; [now right|exact Hd|exact Hg].
    + destruct H.
  - destruct (IH g H) as (l & Hl & Hd & Hg). exists l.
    repeat split; [now right|exact Hd|exact Hg].
Qed.

(** C1, as the code has it. When the command returns zero, a line with
    fewer than six fields is dropped by itself, wherever it stands: the
    sequence returned is the one the device lines alone give.  It holds one
    metric for each device line before the first one whose entry raises, so
    one metric for each parseable line when every device line parses. *)
Theorem short_lines_dropped :
  forall (max_str_digits : Z) (w : world) (stdout : string),
    run_nvidia_smi w = completed 0 stdout ->
    let lines := split LF (strip stdout) in
    get_gpu_metrics max_str_digits w
    = Ok (until_first_failure max_str_digits lines)
    /\ until_first_failure max_str_digits lines
       = until_first_failure max_str_digits (filter device_line lines)
    /\ ((forall line, In line lines -> device_line line = true ->
                      exists g,
                        gpu_entry max_str_digits (parts_of line) = Ok g) ->
        get_gpu_metrics max_str_digits w
        = Ok (one_per_parseable_line max_str_digits lines, [])).
Proof.
  intros msd w stdout H lines.
  pose proof (get_gpu_metrics_completed msd w stdout H) as G.
  split; [exact G|]. split.
  - symmetry. apply until_first_failure_filter.
  - intros Hall. rewrite G. f_equal.
    now apply until_first_failure_all_parse.
Qed.

Lemma short_lines_dropped_witness :
  run_nvidia_smi (gpu_world mixed_output) = completed 0 mixed_output
  /\ get_gpu_metrics 4300 (gpu_world mixed_output)
     = Ok ([mkGpuMetric 0 "Tesla T4" 45 (Tenths 20) (Tenths 160) 60;
            mkGpuMetric 2 "A100" 7 (Tenths 5) (Tenths 400) 33], []).
Proof.
  split; [reflexivity|].
  exact (proj1 (short_lines_dropped 4300 (gpu_world mixed_output)
                                    mixed_output eq_refl)).
Defined.

(** C1, as stated, fails: a device line with a field that is no integer is
    not dropped by itself.  Its entry raises, the loop ends, and the
    parseable line after it gives no metric. *)
Lemma bad_field_ends_the_loop :
  split LF (strip unsupported_output)
  = ["0, Tesla K80, [Not Supported], 100, 11441, 40";
     "1, Tesla T4, 45, 2048, 16384, 60"]
  /\ one_per_parseable_line 4300 (split LF (strip unsupported_output))
     = [mkGpuMetric 1 "Tesla T4" 45 (Tenths 20) (Tenths 160) 60]
  /\ get_gpu_metrics 4300 (gpu_world unsupported_output)
     = Ok ([], [ValueError]).
Proof. repeat split. Qed.

(** ** Memory used and memory in total *)

Lemma gb_or_zero_mono :
  forall msd p q u t a b,
    py_int msd p = Ok u -> py_int msd q = Ok t -> u <= t ->
    gb_or_zero msd p = Ok a -> gb_or_zero msd q = Ok b ->
    number_le a b.
Proof.
  intros msd p q u t a b Hu Ht Hle Ha Hb. unfold gb_or_zero in Ha, Hb.
  destruct (String.eqb p NA) eqn:Ep.
  { apply String.eqb_eq in Ep. subst p. rewrite int_NA in Hu. discriminate. }
  destruct (String.eqb q NA) eqn:Eq.
  { apply String.eqb_eq in Eq. subst q. rewrite int_NA in Ht. discriminate. }
  cbn [negb] in Ha, Hb. rewrite Hu in Ha. rewrite Ht in Hb.
  cbn [bind] in Ha, Hb. unfold int_truediv in Ha, Hb.
  destruct (DBL_MAX * 1024 <? Z.abs (round53 u)); [discriminate|].
  destruct (DBL_MAX * 1024 <? Z.abs (round53 t)); [discriminate|].
  cbn [bind] in Ha, Hb. injection Ha as <-. injection Hb as <-.
  unfold number_le, tenths_of, round1. cbn [fnum flog].
  apply rne_div_mono; [reflexivity|].
  pose proof (round53_mono u t Hle). lia.
Qed.

Lemma get_gpu_metrics_In :
  forall msd w gs out g,
    get_gpu_metrics msd w = Ok (gs, out) -> In g gs ->
    exists stdout line,
      run_nvidia_smi w = completed 0 stdout
      /\ In line (split LF (strip stdout))
      /\ gpu_entry msd (parts_of line) = Ok g.
Proof.
  intros msd w gs out g H Hin.
  destruct (run_nvidia_smi w) as [e|rc stdout] eqn:R.
  - unfold get_gpu_metrics, gpu_try in H. rewrite R in H.
    destruct (is_Exception e); [|discriminate].
    injection H as <- _. destruct Hin.
  - destruct (Z.eq_dec rc 0) as [->|Ne].
    + rewrite (get_gpu_metrics_completed msd w stdout R) in H.
      injection H as H. exists stdout.
      assert (Hg : In g (fst (until_first_failure msd (split LF (strip stdout)))))
        by (rewrite H; exact Hin).
      destruct (until_first_failure_In _ _ _ Hg) as (line & Hl & _ & He).
      exists line. repeat split; assumption.
    + unfold get_gpu_metrics, gpu_try in H. rewrite R in H.
      apply Z.eqb_neq in Ne. rewrite Ne in H.
      injection H as <- _. destruct Hin.
Qed.

(** C8, as the code has it. Every metric of a snapshot comes from a line of
    the command's output, and its two memory figures are in the order of
    the two integers of that line: when the line reports no more memory
    used than in total, [memory_used_gb <= memory_total_gb]. *)
Theorem memory_order_follows_line :
  forall (max_str_digits : Z) (w : world) (snapshot : Snapshot)
         (out : printed) (g : GpuMetric),
    collect_metrics max_str_digits w = Ok (snapshot, out) ->
    In g (gpus snapshot) ->
    exists stdout line,
      run_nvidia_smi w = completed 0 stdout
      /\ In line (split LF (strip stdout))
      /\ gpu_entry max_str_digits (parts_of line) = Ok g
      /\ (forall u t,
            py_int max_str_digits (nth 3 (parts_of line) EmptyString) = Ok u ->
            py_int max_str_digits (nth 4 (parts_of line) EmptyString) = Ok t ->
            u <= t ->
            number_le (memory_used_gb g) (memory_total_gb g)).
Proof.
  intros msd w snapshot out g H Hin. unfold collect_metrics in H.
  destruct (get_system_metrics w) as [sys|]; cbn [bind] in H; [|discriminate].
  destruct (get_gpu_metrics msd w) as [[gs pr]|] eqn:G; cbn [bind] in H;
    [|discriminate].
  injection H as <- _. cbn [gpus] in Hin.
  destruct (get_gpu_metrics_In msd w gs pr g G Hin)
    as (stdout & line & R & Hl & He).
  exists stdout, line. repeat split; try assumption.
  intros u t Hu Ht Hle.
  destruct (gpu_entry_Ok msd _ g He)
    as (p0 & p1 & p2 & p3 & p4 & p5 & rest & E & _ & _ & _ & MU & MT & _).
  rewrite E in Hu, Ht. cbn [nth] in Hu, Ht.
  exact (gb_or_zero_mono msd p3 p4 u t _ _ Hu Ht Hle MU MT).
Qed.

Lemma memory_order_follows_line_witness :
  collect_metrics 4300 (gpu_world t4_line) = Ok (t4_snapshot, [])
  /\ In t4_metric (gpus t4_snapshot)
  /\ exists stdout line,
      run_nvidia_smi (gpu_world t4_line) = completed 0 stdout
      /\ In line (split LF (strip stdout))
      /\ gpu_entry 4300 (parts_of line) = Ok t4_metric
      /\ (forall u t,
            py_int 4300 (nth 3 (parts_of line) EmptyString) = Ok u ->
            py_int 4300 (nth 4 (parts_of line) EmptyString) = Ok t ->
            u <= t ->
            number_le (memory_used_gb t4_metric) (memory_total_gb t4_metric)).
Proof.
  assert (H1 : collect_metrics 4300 (gpu_world t4_line)
               = Ok (t4_snapshot, [])) by reflexivity.
  assert (H2 : In t4_metric (gpus t4_snapshot)) by (left; reflexivity).
  split; [exact H1|]. split; [exact H2|].
  exact (memory_order_follows_line 4300 (gpu_world t4_line) t4_snapshot []
                                   t4_metric H1 H2).
Defined.

(** C8, as stated, fails: the sampler compares nothing.  A line that
    reports 2048 MiB used of 1024 MiB gives a snapshot whose metric has
    2.0 GB used of 1.0 GB, both other than zero. *)
Lemma memory_used_above_total :
  collect_metrics 4300 (gpu_world overcommitted_line)
  = Ok (mkSnapshot "2024-01-01T00:00:00Z"
                   (mkSystemMetrics 12 (Tenths 30) (Tenths 80)
                                    (Tenths 93) (Tenths 931))
                   [mkGpuMetric 0 "Tesla T4" 45 (Tenths 20) (Tenths 10) 60]
                   (mkContainers 0), [])
  /\ number_is_zero (Tenths 20) = false
  /\ number_is_zero (Tenths 10) = false
  /\ ~ number_le (Tenths 20) (Tenths 10).
Proof.
  split; [reflexivity|]. split; [reflexivity|]. split; [reflexivity|].
  unfold number_le, tenths_of. lia.
Qed.

(** * Further properties *)

(** ** The system sampler on a healthy node *)

Lemma rne_div_nonneg : forall a b, 0 < b -> 0 <= a -> 0 <= rne_div a b.
Proof.
  intros a b Hb Ha.
  pose proof (rne_div_mono (0 * b) a b Hb ltac:(lia)) as M.
  rewrite rne_div_exact in M by exact Hb. exact M.
Qed.

Lemma gb_of_bytes_exact :
  forall n, Z.abs n < 2 ^ 53 ->
            gb_of_bytes n = Ok (Tenths (rne_div (10 * n) (1024 ^ 3))).
Proof.
  intros n Hn. unfold gb_of_bytes, int_truediv.
  rewrite (round53_small n Hn).
  destruct (DBL_MAX * 1024 ^ 3 <? Z.abs n) eqn:E.
  - apply Z.ltb_lt in E.
    assert (2 ^ 53 <= DBL_MAX * 1024 ^ 3) by (vm_compute; discriminate). lia.
  - reflexivity.
Qed.

Lemma gb_of_bytes_figure :
  forall n, byte_count n ->
            exists x, gb_of_bytes n = Ok x /\ gb_figure_of_bytes x n.
Proof.
  intros n [H0 H1]. exists (Tenths (rne_div (10 * n) (1024 ^ 3))). split.
  - apply gb_of_bytes_exact. lia.
  - exists (rne_div (10 * n) (1024 ^ 3)). split; [reflexivity|]. split.
    + apply rne_div_nonneg; [reflexivity|lia].
    + apply rne_div_nearest. reflexivity.
Qed.

(** X1. When the three psutil queries answer and the four byte counts are
    non-negative and below 2^53, the system sampler returns, and each of
    its four figures is the non-negative one-digit decimal within 0.05 GB
    of the byte count divided by 1024^3. *)
Theorem system_figures_accurate :
  forall (w : world) (cpu : float) (mem disk : usage),
    psutil_cpu_percent w = Ok cpu ->
    psutil_virtual_memory w = Ok mem ->
    psutil_disk_usage w "/" = Ok disk ->
    byte_count (used mem) -> byte_count (total mem) ->
    byte_count (used disk) -> byte_count (total disk) ->
    exists s,
      get_system_metrics w = Ok s
      /\ gb_figure_of_bytes (ram_used_gb s) (used mem)
      /\ gb_figure_of_bytes (ram_total_gb s) (total mem)
      /\ gb_figure_of_bytes (disk_used_gb s) (used disk)
      /\ gb_figure_of_bytes (disk_total_gb s) (total disk).
Proof.
  intros w cpu mem disk Hc Hm Hd B1 B2 B3 B4.
  destruct (gb_of_bytes_figure _ B1) as (x1 & E1 & F1).
  destruct (gb_of_bytes_figure _ B2) as (x2 & E2 & F2).
  destruct (gb_of_bytes_figure _ B3) as (x3 & E3 & F3).
  destruct (gb_of_bytes_figure _ B4) as (x4 & E4 & F4).
  exists (mkSystemMetrics (round0 cpu) x1 x2 x3 x4). split.
  - unfold get_system_metrics. rewrite Hc, Hm. cbn [bind].
    rewrite E1, E2. cbn [bind]. rewrite Hd. cbn [bind].
    rewrite E3, E4. reflexivity.
  - cbn. repeat split; assumption.
Qed.

Lemma system_figures_accurate_witness :
  byte_count (3 * 1024 ^ 3) /\ byte_count (8 * 1024 ^ 3)
  /\ byte_count (10 ^ 10) /\ byte_count (10 ^ 11)
  /\ exists s,
      get_system_metrics bare_world = Ok s
      /\ gb_figure_of_bytes (ram_used_gb s) (3 * 1024 ^ 3)
      /\ gb_figure_of_bytes (ram_total_gb s) (8 * 1024 ^ 3)
      /\ gb_figure_of_bytes (disk_used_gb s) (10 ^ 10)
      /\ gb_figure_of_bytes (disk_total_gb s) (10 ^ 11).
Proof.
  assert (B1 : byte_count (3 * 1024 ^ 3)) by (unfold byte_count; lia).
  assert (B2 : byte_count (8 * 1024 ^ 3)) by (unfold byte_count; lia).
  assert (B3 : byte_count (10 ^ 10)) by (unfold byte_count; lia).
  assert (B4 : byte_count (10 ^ 11)) by (unfold byte_count; lia).
  split; [exact B1|]. split; [exact B2|]. split; [exact B3|].
  split; [exact B4|].
  exact (system_figures_accurate bare_world (mkFloat 25 1)
           (mkUsage (3 * 1024 ^ 3) (8 * 1024 ^ 3))
           (mkUsage (10 ^ 10) (10 ^ 11))
           eq_refl eq_refl eq_refl B1 B2 B3 B4).
Defined.

Lemma gb_of_bytes_mono :
  forall n1 n2 a b,
    n1 <= n2 -> gb_of_bytes n1 = Ok a -> gb_of_bytes n2 = Ok b ->
    number_le a b.
Proof.
  intros n1 n2 a b Hle Ha Hb. unfold gb_of_bytes, int_truediv in Ha, Hb.
  destruct (DBL_MAX * 1024 ^ 3 <? Z.abs (round53 n1)); [discriminate|].
  destruct (DBL_MAX * 1024 ^ 3 <? Z.abs (round53 n2)); [discriminate|].
  cbn [bind] in Ha, Hb. injection Ha as <-. injection Hb as <-.
  unfold number_le, tenths_of, round1. cbn [fnum flog].
  apply rne_div_mono; [reflexivity|].
  pose proof (round53_mono n1 n2 Hle). lia.
Qed.

(** What a finished run of the system sampler says of the queries. *)
Lemma get_system_metrics_Ok :
  forall w s,
    get_system_metrics w = Ok s ->
    exists cpu mem disk,
      psutil_cpu_percent w = Ok cpu
      /\ psutil_virtual_memory w = Ok mem
      /\ psutil_disk_usage w "/" = Ok disk
      /\ cpu_percent s = round0 cpu
      /\ gb_of_bytes (used mem) = Ok (ram_used_gb s)
      /\ gb_of_bytes (total mem) = Ok (ram_total_gb s)
      /\ gb_of_bytes (used disk) = Ok (disk_used_gb s)
      /\ gb_of_bytes (total disk) = Ok (disk_total_gb s).
Proof.
  intros w s H. unfold get_system_metrics in H.
  destruct (psutil_cpu_percent w) as [cpu|]; cbn [bind] in H; [|discriminate].
  destruct (psutil_virtual_memory w) as [mem|]; cbn [bind] in H;
    [|discriminate].
  destruct (gb_of_bytes (used mem)) as [a|] eqn:E1; cbn [bind] in H;
    [|discriminate].
  destruct (gb_of_bytes (total mem)) as [b|] eqn:E2; cbn [bind] in H;
    [|discriminate].
  destruct (psutil_disk_usage w "/") as [disk|]; cbn [bind] in H;
    [|discriminate].
  destruct (gb_of_bytes (used disk)) as [c|] eqn:E3; cbn [bind] in H;
    [|discriminate].
  destruct (gb_of_bytes (total disk)) as [d|] eqn:E4; cbn [bind] in H;
    [|discriminate].
  injection H as <-. exists cpu, mem, disk. cbn. repeat split; assumption.
Qed.

(** X2. Whatever the system sampler returns keeps the order of what psutil
    reported, for byte counts of any size: memory used no greater than the
    total gives [ram_used_gb <= ram_total_gb], and likewise for the disk.
    Rounding never turns the two around. *)
Theorem system_figures_ordered :
  forall (w : world) (s : SystemMetrics),
    get_system_metrics w = Ok s ->
    exists mem disk,
      psutil_virtual_memory w = Ok mem
      /\ psutil_disk_usage w "/" = Ok disk
      /\ (used mem <= total mem ->
          number_le (ram_used_gb s) (ram_total_gb s))
      /\ (used disk <= total disk ->
          number_le (disk_used_gb s) (disk_total_gb s)).
Proof.
  intros w s H.
  destruct (get_system_metrics_Ok w s H)
    as (cpu & mem & disk & _ & Hm & Hd & _ & E1 & E2 & E3 & E4).
  exists mem, disk. split; [exact Hm|]. split; [exact Hd|]. split.
  - intros Hle. exact (gb_of_bytes_mono _ _ _ _ Hle E1 E2).
  - intros Hle. exact (gb_of_bytes_mono _ _ _ _ Hle E3 E4).
Qed.

Lemma system_figures_ordered_witness :
  get_system_metrics bare_world
  = Ok (mkSystemMetrics 12 (Tenths 30) (Tenths 80) (Tenths 93) (Tenths 931))
  /\ exists mem disk,
      psutil_virtual_memory bare_world = Ok mem
      /\ psutil_disk_usage bare_world "/" = Ok disk
      /\ (used mem <= total mem -> number_le (Tenths 30) (Tenths 80))
      /\ (used disk <= total disk -> number_le (Tenths 93) (Tenths 931)).
Proof.
  assert (H : get_system_metrics bare_world
              = Ok (mkSystemMetrics 12 (Tenths 30) (Tenths 80)
                                    (Tenths 93) (Tenths 931)))
    by reflexivity.
  split; [exact H|].
  exact (system_figures_ordered bare_world _ H).
Defined.

(** X3. The CPU figure is the integer nearest to the percentage psutil
    reported, at most one half away from it, and a percentage between 0
    and 100 gives a figure between 0 and 100. *)
Theorem cpu_percent_nearest :
  forall (w : world) (s : SystemMetrics) (cpu : float),
    get_system_metrics w = Ok s ->
    psutil_cpu_percent w = Ok cpu ->
    0 <= flog cpu ->
    2 * Z.abs (2 ^ flog cpu * cpu_percent s - fnum cpu) <= 2 ^ flog cpu
    /\ (0 <= fnum cpu <= 100 * 2 ^ flog cpu -> 0 <= cpu_percent s <= 100).
Proof.
  intros w s cpu H Hc Hl.
  destruct (get_system_metrics_Ok w s H)
    as (cpu' & mem & disk & Hc' & _ & _ & E & _).
  rewrite Hc in Hc'. injection Hc' as <-. rewrite E. unfold round0.
  assert (Hp : 0 < 2 ^ flog cpu) by (apply Z.pow_pos_nonneg; lia).
  split; [apply rne_div_nearest; exact Hp|].
  intros [H0 H100]. split.
  - apply rne_div_nonneg; assumption.
  - pose proof (rne_div_mono _ _ _ Hp H100) as M.
    rewrite rne_div_exact in M by exact Hp. exact M.
Qed.

Lemma cpu_percent_nearest_witness :
  get_system_metrics bare_world
  = Ok (mkSystemMetrics 12 (Tenths 30) (Tenths 80) (Tenths 93) (Tenths 931))
  /\ psutil_cpu_percent bare_world = Ok (mkFloat 25 1)
  /\ 0 <= 1
  /\ 2 * Z.abs (2 ^ 1 * 12 - 25) <= 2 ^ 1
  /\ (0 <= 25 <= 100 * 2 ^ 1 -> 0 <= 12 <= 100).
Proof.
  assert (H : get_system_metrics bare_world
              = Ok (mkSystemMetrics 12 (Tenths 30) (Tenths 80)
                                    (Tenths 93) (Tenths 931)))
    by reflexivity.
  assert (Hc : psutil_cpu_percent bare_world = Ok (mkFloat 25 1))
    by reflexivity.
  assert (Hl : 0 <= 1) by lia.
  split; [exact H|]. split; [exact Hc|]. split; [exact Hl|].
  exact (cpu_percent_nearest bare_world _ (mkFloat 25 1) H Hc Hl).
Defined.

(** ** More on the GPU sampler *)

(** X4. An entry is made of the first six fields of its line: whatever
    follows the sixth field is ignored, it neither fails the line nor
    changes the metric. *)
Theorem fields_after_sixth_ignored :
  forall (max_str_digits : Z) (parts : list string),
    gpu_entry max_str_digits parts
    = gpu_entry max_str_digits (firstn 6 parts).
Proof.
  intros msd parts.
  destruct parts as [|p0 [|p1 [|p2 [|p3 [|p4 [|p5 rest]]]]]];
    reflexivity.
Qed.

Lemma until_first_failure_prefix :
  forall msd lines,
    exists n,
      map (@Ok GpuMetric) (fst (until_first_failure msd lines))
      = map (fun line => gpu_entry msd (parts_of line))
            (firstn n (filter device_line lines))
      /\ n = List.length (fst (until_first_failure msd lines))
      /\ (n <= List.length (filter device_line lines))%nat.
Proof.
  intros msd. induction lines as [|line rest IH].
  - exists 0%nat. repeat split. cbn. lia.
  - cbn [until_first_failure filter]. destruct (device_line line) eqn:E.
    + destruct (gpu_entry msd (parts_of line)) as [g|e] eqn:Eg.
      * destruct IH as (n & IH1 & IH2 & IH3).
        destruct (until_first_failure msd rest) as [gs out].
        cbn [fst] in *. exists (S n). cbn [firstn map List.length].
        rewrite Eg, IH1. repeat split; [congruence|lia].
      * exists 0%nat. cbn. repeat split. lia.
    + exact IH.
Qed.

(** X5. On a zero return code the metrics come in the order of the lines
    of the output: they are the entries of the first [n] device lines, for
    the number [n] of metrics returned.  Nothing is sorted by index and no
    line is read out of turn. *)
Theorem metrics_in_line_order :
  forall (max_str_digits : Z) (w : world) (stdout : string)
         (gs : list GpuMetric) (out : printed),
    run_nvidia_smi w = completed 0 stdout ->
    get_gpu_metrics max_str_digits w = Ok (gs, out) ->
    let device_lines := filter device_line (split LF (strip stdout)) in
    map (@Ok GpuMetric) gs
    = map (fun line => gpu_entry max_str_digits (parts_of line))
          (firstn (List.length gs) device_lines)
    /\ (List.length gs <= List.length device_lines)%nat.
Proof.
  intros msd w stdout gs out R H device_lines.
  rewrite (get_gpu_metrics_completed msd w stdout R) in H.
  injection H as H.
  destruct (until_first_failure_prefix msd (split LF (strip stdout)))
    as (n & P1 & P2 & P3).
  rewrite H in P1, P2. cbn [fst] in P1, P2. subst n.
  split; [exact P1|exact P3].
Qed.

Lemma metrics_in_line_order_witness :
  run_nvidia_smi (gpu_world mixed_output) = completed 0 mixed_output
  /\ get_gpu_metrics 4300 (gpu_world mixed_output)
     = Ok ([mkGpuMetric 0 "Tesla T4" 45 (Tenths 20) (Tenths 160) 60;
            mkGpuMetric 2 "A100" 7 (Tenths 5) (Tenths 400) 33], [])
  /\ (2 <= List.length
             (filter device_line (split LF (strip mixed_output))))%nat.
Proof.
  assert (R : run_nvidia_smi (gpu_world mixed_output)
              = completed 0 mixed_output) by reflexivity.
  assert (H : get_gpu_metrics 4300 (gpu_world mixed_output)
              = Ok ([mkGpuMetric 0 "Tesla T4" 45 (Tenths 20) (Tenths 160) 60;
                     mkGpuMetric 2 "A100" 7 (Tenths 5) (Tenths 400) 33], []))
    by reflexivity.
  split; [exact R|]. split; [exact H|].
  exact (proj2 (metrics_in_line_order 4300 (gpu_world mixed_output)
                  mixed_output _ _ R H)).
Defined.

(** X6. A call of the GPU sampler prints one line at most, and only for an
    exception that [except Exception] caught.  A return code other than
    zero is silent: nothing is printed and the sequence is empty. *)
Theorem one_line_printed_at_most :
  forall (max_str_digits : Z) (w : world) (gs : list GpuMetric)
         (out : printed),
    get_gpu_metrics max_str_digits w = Ok (gs, out) ->
    (List.length out <= 1)%nat
    /\ (forall e, In e out -> is_Exception e = true)
    /\ (forall returncode stdout,
          run_nvidia_smi w = completed returncode stdout ->
          returncode <> 0 -> gs = [] /\ out = []).
Proof.
  intros msd w gs out H.
  destruct (run_nvidia_smi w) as [e|rc stdout] eqn:R.
  - unfold get_gpu_metrics, gpu_try in H. rewrite R in H.
    destruct (is_Exception e) eqn:Ee; [|discriminate].
    injection H as <- <-. split; [cbn; lia|]. split.
    + intros e' [<-|[]]. exact Ee.
    + intros; discriminate.
  - destruct (Z.eq_dec rc 0) as [->|Ne].
    + rewrite (get_gpu_metrics_completed msd w stdout R) in H.
      injection H as H.
      destruct (until_first_failure_printed msd (split LF (strip stdout)))
        as [P|(e & P & Pe)]; rewrite H in P; cbn [snd] in P; subst out.
      * split; [cbn; lia|]. split; [intros e []|].
        intros rc' stdout' E Hrc. injection E as <- _. contradiction.
      * split; [cbn; lia|]. split; [intros e' [<-|[]]; exact Pe|].
        intros rc' stdout' E Hrc. injection E as <- _. contradiction.
    + unfold get_gpu_metrics, gpu_try in H. rewrite R in H.
      pose proof Ne as Ne'. apply Z.eqb_neq in Ne'. rewrite Ne' in H.
      injection H as <- <-. split; [cbn; lia|]. split; [intros e []|].
      intros; now split.
Qed.

Lemma one_line_printed_at_most_witness :
  get_gpu_metrics 4300 (gpu_world unsupported_output)
  = Ok ([], [ValueError])
  /\ (List.length [ValueError] <= 1)%nat
  /\ (forall e, In e [ValueError] -> is_Exception e = true).
Proof.
  assert (H : get_gpu_metrics 4300 (gpu_world unsupported_output)
              = Ok ([], [ValueError])) by reflexivity.
  split; [exact H|].
  pose proof (one_line_printed_at_most 4300 (gpu_world unsupported_output)
                [] [ValueError] H) as P.
  split; [exact (proj1 P)|exact (proj1 (proj2 P))].
Defined.

(** X7. The two tolerant samplers differ on what is no [Exception]: a
    [KeyboardInterrupt] or [SystemExit] raised while the device-query
    command runs leaves the GPU sampler, the snapshot assembler and the
    handler, whereas the same raised while the container command runs is
    swallowed and counted as 0. *)
Theorem interrupt_leaves_gpu_sampler :
  forall (max_str_digits : Z) (w : world) (e : exn),
    is_Exception e = false ->
    (run_nvidia_smi w = run_raised e ->
     get_gpu_metrics max_str_digits w = Raise e
     /\ (forall sys,
           get_system_metrics w = Ok sys ->
           collect_metrics max_str_digits w = Raise e
           /\ handle_one_request max_str_digits w "GET" "/metrics" = Raise e))
    /\ (run_docker_ps w = run_raised e -> get_container_count w = 0).
Proof.
  intros msd w e He. split.
  - intros R.
    assert (G : get_gpu_metrics msd w = Raise e).
    { unfold get_gpu_metrics, gpu_try. rewrite R, He. reflexivity. }
    split; [exact G|]. intros sys Hs.
    assert (C : collect_metrics msd w = Raise e).
    { unfold collect_metrics. rewrite Hs. cbn [bind]. rewrite G. reflexivity. }
    split; [exact C|]. cbn. rewrite C. reflexivity.
  - intros R. unfold get_container_count, container_try. rewrite R.
    reflexivity.
Qed.

Lemma interrupt_leaves_gpu_sampler_witness :
  is_Exception KeyboardInterrupt = false
  /\ get_gpu_metrics 4300
       (example_world (run_raised KeyboardInterrupt)
                      (run_raised KeyboardInterrupt))
     = Raise KeyboardInterrupt
  /\ get_container_count
       (example_world (run_raised KeyboardInterrupt)
                      (run_raised KeyboardInterrupt)) = 0.
Proof.
  assert (He : is_Exception KeyboardInterrupt = false) by reflexivity.
  pose proof (interrupt_leaves_gpu_sampler 4300
                (example_world (run_raised KeyboardInterrupt)
                               (run_raised KeyboardInterrupt))
                KeyboardInterrupt He) as P.
  split; [exact He|]. split.
  - exact (proj1 (proj1 P eq_refl)).
  - exact (proj2 P eq_refl).
Defined.

(** X8. A memory field of [n] MiB comes out as zero exactly when [n] is
    between -51 and 51: a device that uses up to 51 MiB shows 0.0 GB, the
    value a field of [[N/A]] gives too. *)
Theorem small_memory_shows_zero :
  forall (max_str_digits : Z) (p : string) (n : Z),
    py_int max_str_digits p = Ok n ->
    Z.abs n < 2 ^ 53 ->
    exists x,
      gb_or_zero max_str_digits p = Ok x
      /\ (number_is_zero x = true <-> -51 <= n <= 51).
Proof.
  intros msd p n Hp Hn. exists (Tenths (rne_div (10 * n) 1024)).
  split; [exact (gb_or_zero_exact msd p n Hp Hn)|].
  unfold number_is_zero, tenths_of. rewrite Z.eqb_eq.
  pose proof (rne_div_nearest (10 * n) 1024 ltac:(lia)) as N.
  split; intros H; lia.
Qed.

Lemma small_memory_shows_zero_witness :
  py_int 4300 "51" = Ok 51 /\ Z.abs 51 < 2 ^ 53
  /\ exists x,
      gb_or_zero 4300 "51" = Ok x
      /\ (number_is_zero x = true <-> -51 <= 51 <= 51).
Proof.
  assert (Hp : py_int 4300 "51" = Ok 51) by reflexivity.
  assert (Hn : Z.abs 51 < 2 ^ 53) by (cbn; lia).
  split; [exact Hp|]. split; [exact Hn|].
  exact (small_memory_shows_zero 4300 "51" 51 Hp Hn).
Defined.

(** ** Numerals *)

Lemma digits_cons_digit :
  forall c v r acc count after_sep,
    digit_value c = Some v ->
    digits (String c r) acc count after_sep
    = digits r (10 * acc + v) (count + 1) false.
Proof.
  intros c v r acc count after_sep H. cbn [digits].
  destruct (Ascii.eqb_spec c "_"%char) as [->|_]; [discriminate|].
  rewrite H. reflexivity.
Qed.

Ltac uint_cases d IH :=
  induction d as [|d IH|d IH|d IH|d IH|d IH|d IH|d IH|d IH|d IH|d IH].

Lemma uint_spaceless :
  forall d, spaceless (DecimalString.NilEmpty.string_of_uint d) = true.
Proof. uint_cases d IH; [reflexivity|exact IH..]. Qed.

Lemma uint_lacks :
  forall c d,
    digit_value c = None ->
    lacks c (DecimalString.NilEmpty.string_of_uint d) = true.
Proof.
  intros c d H. uint_cases d IH; [reflexivity|..];
    cbn [DecimalString.NilEmpty.string_of_uint lacks]; rewrite IH;
    match goal with
    | |- negb (Ascii.eqb ?x c) && true = true =>
        destruct (Ascii.eqb_spec x c) as [<-|_];
        [vm_compute in H; discriminate|reflexivity]
    end.
Qed.

Lemma digits_uint_acc :
  forall d acc count after_sep,
    (d = Decimal.Nil -> after_sep = false) ->
    digits (DecimalString.NilEmpty.string_of_uint d) (Z.pos acc) count
           after_sep
    = Some (Z.pos (Pos.of_uint_acc d acc),
            count + Z.of_nat (String.length
                                (DecimalString.NilEmpty.string_of_uint d))).
Proof.
  uint_cases d IH; intros acc count after_sep H;
    cbn [DecimalString.NilEmpty.string_of_uint Pos.of_uint_acc String.length].
  - rewrite (H eq_refl). cbn. do 2 f_equal. lia.
  - rewrite (digits_cons_digit _ 0) by reflexivity.
    replace (10 * Z.pos acc + 0) with (Z.pos (10 * acc)) by lia.
    rewrite IH by reflexivity. do 2 f_equal. lia.
  - rewrite (digits_cons_digit _ 1) by reflexivity.
    replace (10 * Z.pos acc + 1) with (Z.pos (1 + 10 * acc)) by lia.
    rewrite IH by reflexivity. do 2 f_equal. lia.
  - rewrite (digits_cons_digit _ 2) by reflexivity.
    replace (10 * Z.pos acc + 2) with (Z.pos (2 + 10 * acc)) by lia.
    rewrite IH by reflexivity. do 2 f_equal. lia.
  - rewrite (digits_cons_digit _ 3) by reflexivity.
    replace (10 * Z.pos acc + 3) with (Z.pos (3 + 10 * acc)) by lia.
    rewrite IH by reflexivity. do 2 f_equal. lia.
  - rewrite (digits_cons_digit _ 4) by reflexivity.
    replace (10 * Z.pos acc + 4) with (Z.pos (4 + 10 * acc)) by lia.
    rewrite IH by reflexivity. do 2 f_equal. lia.
  - rewrite (digits_cons_digit _ 5) by reflexivity.
    replace (10 * Z.pos acc + 5) with (Z.pos (5 + 10 * acc)) by lia.
    rewrite IH by reflexivity. do 2 f_equal. lia.
  - rewrite (digits_cons_digit _ 6) by reflexivity.
    replace (10 * Z.pos acc + 6) with (Z.pos (6 + 10 * acc)) by lia.
    rewrite IH by reflexivity. do 2 f_equal. lia.
  - rewrite (digits_cons_digit _ 7) by reflexivity.
    replace (10 * Z.pos acc + 7) with (Z.pos (7 + 10 * acc)) by lia.
    rewrite IH by reflexivity. do 2 f_equal. lia.
  - rewrite (digits_cons_digit _ 8) by reflexivity.
    replace (10 * Z.pos acc + 8) with (Z.pos (8 + 10 * acc)) by lia.
    rewrite IH by reflexivity. do 2 f_equal. lia.
  - rewrite (digits_cons_digit _ 9) by reflexivity.
    replace (10 * Z.pos acc + 9) with (Z.pos (9 + 10 * acc)) by lia.
    rewrite IH by reflexivity. do 2 f_equal. lia.
Qed.

Lemma digits_uint :
  forall d count after_sep,
    (d = Decimal.Nil -> after_sep = false) ->
    digits (DecimalString.NilEmpty.string_of_uint d) 0 count after_sep
    = Some (Z.of_N (Pos.of_uint d),
            count + Z.of_nat (String.length
                                (DecimalString.NilEmpty.string_of_uint d))).
Proof.
  uint_cases d IH; intros count after_sep H;
    cbn [DecimalString.NilEmpty.string_of_uint Pos.of_uint String.length].
  - rewrite (H eq_refl). cbn. do 2 f_equal. lia.
  - rewrite (digits_cons_digit _ 0) by reflexivity.
    change (10 * 0 + 0) with 0.
    rewrite IH by reflexivity. do 2 f_equal. lia.
  - rewrite (digits_cons_digit _ 1) by reflexivity.
    change (10 * 0 + 1) with (Z.pos 1).
    rewrite digits_uint_acc by reflexivity. do 2 f_equal. lia.
  - rewrite (digits_cons_digit _ 2) by reflexivity.
    change (10 * 0 + 2) with (Z.pos 2).
    rewrite digits_uint_acc by reflexivity. do 2 f_equal. lia.
  - rewrite (digits_cons_digit _ 3) by reflexivity.
    change (10 * 0 + 3) with (Z.pos 3).
    rewrite digits_uint_acc by reflexivity. do 2 f_equal. lia.
  - rewrite (digits_cons_digit _ 4) by reflexivity.
    change (10 * 0 + 4) with (Z.pos 4).
    rewrite digits_uint_acc by reflexivity. do 2 f_equal. lia.
  - rewrite (digits_cons_digit _ 5) by reflexivity.
    change (10 * 0 + 5) with (Z.pos 5).
    rewrite digits_uint_acc by reflexivity. do 2 f_equal. lia.
  - rewrite (digits_cons_digit _ 6) by reflexivity.
    change (10 * 0 + 6) with (Z.pos 6).
    rewrite digits_uint_acc by reflexivity. do 2 f_equal. lia.
  - rewrite (digits_cons_digit _ 7) by reflexivity.
    change (10 * 0 + 7) with (Z.pos 7).
    rewrite digits_uint_acc by reflexivity. do 2 f_equal. lia.
  - rewrite (digits_cons_digit _ 8) by reflexivity.
    change (10 * 0 + 8) with (Z.pos 8).
    rewrite digits_uint_acc by reflexivity. do 2 f_equal. lia.
  - rewrite (digits_cons_digit _ 9) by reflexivity.
    change (10 * 0 + 9) with (Z.pos 9).
    rewrite digits_uint_acc by reflexivity. do 2 f_equal. lia.
Qed.

Lemma int_isspace_isspace : forall c, int_isspace c = true -> isspace c = true.
Proof.
  intros c. unfold int_isspace, isspace. set (n := code c).
  rewrite !orb_true_iff, !andb_true_iff, !Z.leb_le, !Z.eqb_eq. lia.
Qed.

Lemma not_isspace_int : forall c, isspace c = false -> int_isspace c = false.
Proof.
  intros c H. destruct (int_isspace c) eqn:E; [|reflexivity].
  apply int_isspace_isspace in E. congruence.
Qed.

Lemma spaceless_cons :
  forall c r, spaceless (String c r) = true ->
              isspace c = false /\ spaceless r = true.
Proof.
  intros c r H. cbn [spaceless] in H. apply andb_prop in H.
  destruct H as [H1 H2]. split; [|exact H2].
  now destruct (isspace c).
Qed.

Lemma int_rskip_cons :
  forall c r, int_isspace c = false -> int_rskip r = r ->
              int_rskip (String c r) = String c r.
Proof.
  intros c r Hc Hr. cbn [int_rskip]. rewrite Hr.
  destruct r; [rewrite Hc|]; reflexivity.
Qed.

Lemma rstrip_cons :
  forall c r, isspace c = false -> rstrip r = r ->
              rstrip (String c r) = String c r.
Proof.
  intros c r Hc Hr. cbn [rstrip]. rewrite Hr.
  destruct r; [rewrite Hc|]; reflexivity.
Qed.

Lemma spaceless_int_lskip : forall s, spaceless s = true -> int_lskip s = s.
Proof.
  intros [|c r] H; [reflexivity|]. apply spaceless_cons in H.
  cbn [int_lskip]. now rewrite (not_isspace_int c (proj1 H)).
Qed.

Lemma spaceless_int_rskip : forall s, spaceless s = true -> int_rskip s = s.
Proof.
  induction s as [|c r IH]; intros H; [reflexivity|].
  apply spaceless_cons in H. destruct H as [Hc Hr].
  apply int_rskip_cons; [now apply not_isspace_int|now apply IH].
Qed.

Lemma spaceless_lstrip : forall s, spaceless s = true -> lstrip s = s.
Proof.
  intros [|c r] H; [reflexivity|]. apply spaceless_cons in H.
  cbn [lstrip]. now rewrite (proj1 H).
Qed.

Lemma spaceless_rstrip : forall s, spaceless s = true -> rstrip s = s.
Proof.
  induction s as [|c r IH]; intros H; [reflexivity|].
  apply spaceless_cons in H. destruct H as [Hc Hr].
  apply rstrip_cons; [exact Hc|now apply IH].
Qed.

Lemma spaceless_strip : forall s, spaceless s = true -> strip s = s.
Proof.
  intros s H. unfold strip. rewrite (spaceless_lstrip s H).
  now apply spaceless_rstrip.
Qed.

Lemma nilzero_uint :
  forall d, d <> Decimal.Nil ->
            DecimalString.NilZero.string_of_uint d
            = DecimalString.NilEmpty.string_of_uint d.
Proof. intros [] H; [contradiction|reflexivity..]. Qed.

Lemma py_int_uint :
  forall msd d,
    d <> Decimal.Nil ->
    (String.length (DecimalString.NilEmpty.string_of_uint d) <= 640)%nat ->
    py_int msd (DecimalString.NilEmpty.string_of_uint d)
    = Ok (Z.of_N (Pos.of_uint d)).
Proof.
  intros msd d Hd Hl. unfold py_int.
  rewrite (spaceless_int_lskip _ (uint_spaceless d)).
  rewrite (spaceless_int_rskip _ (uint_spaceless d)).
  pose proof (digits_uint d 0 true ltac:(intros; contradiction)) as D.
  destruct d; [contradiction|..];
    cbn [DecimalString.NilEmpty.string_of_uint] in *;
    cbv beta iota zeta; rewrite D;
    match goal with
    | |- (if (640 <? ?c) && _ && _ then _ else _) = _ =>
        replace (640 <? c) with false
          by (symmetry; apply Z.ltb_ge; lia)
    end; reflexivity.
Qed.

Lemma py_int_minus_uint :
  forall msd d,
    d <> Decimal.Nil ->
    (String.length (DecimalString.NilEmpty.string_of_uint d) <= 640)%nat ->
    py_int msd (String "-" (DecimalString.NilEmpty.string_of_uint d))
    = Ok (- Z.of_N (Pos.of_uint d)).
Proof.
  intros msd d Hd Hl. unfold py_int.
  change (int_lskip (String "-" (DecimalString.NilEmpty.string_of_uint d)))
    with (String "-" (DecimalString.NilEmpty.string_of_uint d)).
  rewrite int_rskip_cons
    by (try reflexivity; apply spaceless_int_rskip, uint_spaceless).
  cbv beta iota zeta.
  rewrite (digits_uint d 0 true) by (intros; contradiction).
  match goal with
  | |- (if (640 <? ?c) && _ && _ then _ else _) = _ =>
      replace (640 <? c) with false by (symmetry; apply Z.ltb_ge; lia)
  end.
  reflexivity.
Qed.

(** [int(str(n))] is [n], for a numeral short of any limit. *)
Lemma py_int_str :
  forall msd n, short_numeral n -> py_int msd (str n) = Ok n.
Proof.
  intros msd n H. unfold short_numeral, str in *.
  destruct n as [|p|p]; cbn [Z.to_int DecimalString.NilZero.string_of_int] in *.
  - reflexivity.
  - pose proof (DecimalPos.Unsigned.to_uint_nonnil p) as Hn.
    rewrite (nilzero_uint _ Hn) in *.
    rewrite (py_int_uint msd _ Hn H), DecimalPos.Unsigned.of_to.
    reflexivity.
  - pose proof (DecimalPos.Unsigned.to_uint_nonnil p) as Hn.
    rewrite (nilzero_uint _ Hn) in *. cbn [String.length] in H.
    rewrite (py_int_minus_uint msd _ Hn ltac:(lia)),
      DecimalPos.Unsigned.of_to.
    reflexivity.
Qed.

Lemma str_spaceless : forall n, spaceless (str n) = true.
Proof.
  intros n. unfold str.
  destruct n as [|p|p]; cbn [Z.to_int DecimalString.NilZero.string_of_int];
    [reflexivity|..];
    rewrite (nilzero_uint _ (DecimalPos.Unsigned.to_uint_nonnil p));
    [|cbn [spaceless]]; rewrite uint_spaceless; reflexivity.
Qed.

Lemma str_lacks :
  forall c n, digit_value c = None -> c <> "-"%char -> lacks c (str n) = true.
Proof.
  intros c n Hc Hm. unfold str.
  destruct n as [|p|p]; cbn [Z.to_int DecimalString.NilZero.string_of_int].
  - cbn [DecimalString.NilZero.string_of_uint]. now apply uint_lacks.
  - rewrite (nilzero_uint _ (DecimalPos.Unsigned.to_uint_nonnil p)).
    now apply uint_lacks.
  - rewrite (nilzero_uint _ (DecimalPos.Unsigned.to_uint_nonnil p)).
    cbn [lacks]. rewrite uint_lacks by exact Hc.
    destruct (Ascii.eqb_spec "-" c) as [E|_]; [now subst c|reflexivity].
Qed.

Lemma str_nonempty : forall n, str n <> EmptyString.
Proof.
  intros n. unfold str.
  destruct n as [|p|p]; cbn [Z.to_int DecimalString.NilZero.string_of_int];
    [discriminate| |discriminate].
  pose proof (DecimalPos.Unsigned.to_uint_nonnil p) as Hn.
  rewrite (nilzero_uint _ Hn). destruct (Pos.to_uint p);
    [contradiction|discriminate..].
Qed.

(** ** Splitting, joining and stripping *)

Lemma lacks_app :
  forall c a b, lacks c (a ++ b) = lacks c a && lacks c b.
Proof.
  intros c a b. induction a as [|x a IH]; [reflexivity|].
  cbn [append lacks]. rewrite IH. now rewrite andb_assoc.
Qed.

Lemma split_lacks : forall sep s, lacks sep s = true -> split sep s = [s].
Proof.
  intros sep. induction s as [|x s IH]; intros H; [reflexivity|].
  cbn [lacks] in H. apply andb_prop in H. destruct H as [Hx Hs].
  cbn [split]. apply negb_true_iff in Hx. rewrite Hx, (IH Hs). reflexivity.
Qed.

Lemma split_app :
  forall sep a b,
    lacks sep a = true ->
    split sep (a ++ String sep b) = a :: split sep b.
Proof.
  intros sep a b. induction a as [|x a IH]; intros H.
  - cbn [append split]. now rewrite Ascii.eqb_refl.
  - cbn [lacks] in H. apply andb_prop in H. destruct H as [Hx Ha].
    cbn [append split]. apply negb_true_iff in Hx.
    rewrite Hx, (IH Ha). reflexivity.
Qed.

Lemma strip_after_space : forall s, strip (String " " s) = strip s.
Proof. reflexivity. Qed.

Lemma parts_after_space :
  forall s, map strip (split ","%char (String " " s))
            = map strip (split ","%char s).
Proof.
  intros s. cbn [split]. change (Ascii.eqb " " ",") with false. cbv iota.
  destruct (split_cons ","%char s) as (w & ws & E). rewrite E.
  cbn [map]. now rewrite strip_after_space.
Qed.

(** The fields of a line joined with a comma and a space are read back,
    stripped. *)
Lemma parts_of_join :
  forall x items,
    Forall (fun f => lacks ","%char f = true) (x :: items) ->
    parts_of (join ", " (x :: items)) = map strip (x :: items).
Proof.
  intros x items. revert x. induction items as [|y rest IH]; intros x H.
  - inversion H; subst. unfold parts_of. cbn [join map].
    now rewrite split_lacks.
  - inversion H as [|? ? Hx Hr]; subst.
    change (join ", " (x :: y :: rest))
      with (x ++ String "," (String " " (join ", " (y :: rest)))).
    unfold parts_of. rewrite split_app by exact Hx. cbn [map].
    rewrite parts_after_space. f_equal. exact (IH y Hr).
Qed.

Lemma split_join_lines :
  forall x items,
    Forall (fun l => lacks LF l = true) (x :: items) ->
    split LF (join (String LF EmptyString) (x :: items)) = x :: items.
Proof.
  intros x items. revert x. induction items as [|y rest IH]; intros x H.
  - inversion H; subst. cbn [join]. now apply split_lacks.
  - inversion H as [|? ? Hx Hr]; subst.
    change (join (String LF EmptyString) (x :: y :: rest))
      with (x ++ String LF (join (String LF EmptyString) (y :: rest))).
    rewrite split_app by exact Hx. f_equal. exact (IH y Hr).
Qed.

Lemma lacks_join :
  forall c sep items,
    lacks c sep = true ->
    Forall (fun f => lacks c f = true) items ->
    lacks c (join sep items) = true.
Proof.
  intros c sep items Hs H. induction H as [|x rest Hx Hr IH]; [reflexivity|].
  destruct rest as [|y rest']; [exact Hx|].
  change (join sep (x :: y :: rest')) with (x ++ sep ++ join sep (y :: rest')).
  rewrite !lacks_app, Hx, Hs, IH. reflexivity.
Qed.

Lemma lstrip_tight : forall s, starts_tight s = true -> lstrip s = s.
Proof.
  intros [|c r] H; [discriminate|]. cbn in H. apply negb_true_iff in H.
  cbn [lstrip]. now rewrite H.
Qed.

Lemma starts_tight_app :
  forall a b, starts_tight a = true -> starts_tight (a ++ b) = true.
Proof. intros [|c r] b H; [discriminate|exact H]. Qed.

Lemma ends_tight_nonempty : forall s, ends_tight s = true -> s <> EmptyString.
Proof. intros [|c r] H; [discriminate|discriminate]. Qed.

Lemma ends_tight_app :
  forall a b, ends_tight b = true -> ends_tight (a ++ b) = true.
Proof.
  intros a b H. induction a as [|x a IH]; [exact H|].
  cbn [append ends_tight].
  destruct (a ++ b) as [|y r] eqn:E; [|exact IH].
  destruct a; [|discriminate]. cbn in E. subst b. discriminate.
Qed.

Lemma rstrip_tight : forall s, ends_tight s = true -> rstrip s = s.
Proof.
  induction s as [|x r IH]; intros H; [discriminate|].
  destruct r as [|y r'].
  - cbn in H. apply negb_true_iff in H. cbn. now rewrite H.
  - cbn [ends_tight] in H. specialize (IH H). cbn [rstrip]. cbn [rstrip] in IH.
    rewrite IH. reflexivity.
Qed.

Lemma lstrip_blank : forall s, blank s = true -> lstrip s = EmptyString.
Proof.
  induction s as [|x r IH]; intros H; [reflexivity|].
  cbn [blank] in H. apply andb_prop in H. destruct H as [Hx Hr].
  cbn [lstrip]. rewrite Hx. now apply IH.
Qed.

Lemma rstrip_blank : forall s, blank s = true -> rstrip s = EmptyString.
Proof.
  induction s as [|x r IH]; intros H; [reflexivity|].
  cbn [blank] in H. apply andb_prop in H. destruct H as [Hx Hr].
  cbn [rstrip]. rewrite (IH Hr), Hx. reflexivity.
Qed.

Lemma rstrip_app_blank :
  forall a ws, blank ws = true -> rstrip (a ++ ws) = rstrip a.
Proof.
  intros a ws H. induction a as [|x a IH].
  - cbn [append]. now rewrite rstrip_blank.
  - cbn [append rstrip]. now rewrite IH.
Qed.

(** White space after a text that starts and ends with something else is
    stripped, and nothing more. *)
Lemma strip_app_blank :
  forall s ws,
    starts_tight s = true -> ends_tight s = true -> blank ws = true ->
    strip (s ++ ws) = s.
Proof.
  intros s ws H1 H2 H3. unfold strip.
  rewrite (lstrip_tight _ (starts_tight_app s ws H1)).
  rewrite (rstrip_app_blank s ws H3). now apply rstrip_tight.
Qed.

Lemma strip_blank : forall ws, blank ws = true -> strip ws = EmptyString.
Proof. intros ws H. unfold strip. now rewrite (lstrip_blank ws H). Qed.

Lemma spaceless_tight :
  forall s, spaceless s = true -> s <> EmptyString ->
            starts_tight s = true /\ ends_tight s = true.
Proof.
  induction s as [|x r IH]; intros H Hn; [contradiction|].
  apply spaceless_cons in H. destruct H as [Hx Hr]. split.
  - cbn. now rewrite Hx.
  - destruct r as [|y r']; [cbn; now rewrite Hx|].
    cbn [ends_tight]. apply (IH Hr). discriminate.
Qed.

Lemma starts_tight_join :
  forall sep x items,
    starts_tight x = true -> starts_tight (join sep (x :: items)) = true.
Proof.
  intros sep x [|y rest] H; [exact H|].
  change (join sep (x :: y :: rest)) with (x ++ sep ++ join sep (y :: rest)).
  now apply starts_tight_app.
Qed.

Lemma ends_tight_join :
  forall sep x items,
    ends_tight (last (x :: items) EmptyString) = true ->
    ends_tight (join sep (x :: items)) = true.
Proof.
  intros sep x items. revert x.
  induction items as [|y rest IH]; intros x H; [exact H|].
  change (join sep (x :: y :: rest)) with (x ++ sep ++ join sep (y :: rest)).
  apply ends_tight_app, ends_tight_app. apply IH. exact H.
Qed.

(** ** From the devices to the metrics *)

Lemma show_reading_spaceless :
  forall r, spaceless (show_reading r) = true.
Proof. intros [n|]; [apply str_spaceless|reflexivity]. Qed.

Lemma show_reading_nonempty : forall r, show_reading r <> EmptyString.
Proof. intros [n|]; [apply str_nonempty|discriminate]. Qed.

Lemma show_reading_lacks :
  forall c r,
    digit_value c = None -> c <> "-"%char -> lacks c NA = true ->
    lacks c (show_reading r) = true.
Proof. intros c [n|] H1 H2 H3; [now apply str_lacks|exact H3]. Qed.

Lemma str_not_NA :
  forall n, short_numeral n -> String.eqb (str n) NA = false.
Proof.
  intros n H. destruct (String.eqb (str n) NA) eqn:E; [|reflexivity].
  apply String.eqb_eq in E. pose proof (py_int_str 0 n H) as P.
  rewrite E, int_NA in P. discriminate.
Qed.

Lemma int_or_zero_show :
  forall msd r,
    short_reading r ->
    int_or_zero msd (show_reading r) = Ok (reading_or_zero r).
Proof.
  intros msd [n|] H; [|reflexivity]. cbn in *. unfold int_or_zero.
  rewrite (str_not_NA n H). cbn [negb]. now apply py_int_str.
Qed.

Lemma gb_or_zero_show :
  forall msd r,
    memory_reading r ->
    gb_or_zero msd (show_reading r) = Ok (gb_of_mib r).
Proof.
  intros msd [n|] H; [|reflexivity]. cbn in *. destruct H as [Hs Hn].
  exact (gb_or_zero_exact msd (str n) n (py_int_str msd n Hs) Hn).
Qed.

Lemma nvidia_smi_line_parts :
  forall d,
    lacks ","%char (dev_name d) = true ->
    parts_of (nvidia_smi_line d)
    = [str (dev_index d); strip (dev_name d);
       show_reading (dev_utilization d);
       show_reading (dev_memory_used d);
       show_reading (dev_memory_total d);
       show_reading (dev_temperature d)].
Proof.
  intros d Hn. unfold nvidia_smi_line. rewrite parts_of_join.
  - cbn [map]. rewrite (spaceless_strip _ (str_spaceless _)).
    now rewrite !(spaceless_strip _ (show_reading_spaceless _)).
  - repeat constructor;
      try exact Hn;
      try (apply str_lacks; [reflexivity|discriminate]);
      apply show_reading_lacks; try reflexivity; discriminate.
Qed.

Lemma nvidia_smi_line_entry :
  forall msd d,
    printable d ->
    gpu_entry msd (parts_of (nvidia_smi_line d)) = Ok (metric_of_device d).
Proof.
  intros msd d (Hc & _ & Hi & Hu & Hmu & Hmt & Ht).
  rewrite (nvidia_smi_line_parts d Hc).
  unfold gpu_entry, getitem. cbn [nth_error bind].
  rewrite (py_int_str msd _ Hi). cbn [bind].
  rewrite (int_or_zero_show msd _ Hu). cbn [bind].
  rewrite (gb_or_zero_show msd _ Hmu). cbn [bind].
  rewrite (gb_or_zero_show msd _ Hmt). cbn [bind].
  rewrite (int_or_zero_show msd _ Ht). reflexivity.
Qed.

Lemma nvidia_smi_line_tight :
  forall d,
    starts_tight (nvidia_smi_line d) = true
    /\ ends_tight (nvidia_smi_line d) = true.
Proof.
  intros d. unfold nvidia_smi_line. split.
  - apply starts_tight_join.
    exact (proj1 (spaceless_tight _ (str_spaceless _) (str_nonempty _))).
  - apply ends_tight_join. cbn [last].
    exact (proj2 (spaceless_tight _ (show_reading_spaceless _)
                                  (show_reading_nonempty _))).
Qed.

Lemma nvidia_smi_line_device :
  forall d,
    lacks ","%char (dev_name d) = true ->
    device_line (nvidia_smi_line d) = true.
Proof.
  intros d Hc. unfold device_line. rewrite (nvidia_smi_line_parts d Hc).
  destruct (nvidia_smi_line d) eqn:E; [|reflexivity].
  pose proof (proj1 (nvidia_smi_line_tight d)) as T. rewrite E in T.
  discriminate.
Qed.

Lemma nvidia_smi_line_one_line :
  forall d, lacks LF (dev_name d) = true ->
            lacks LF (nvidia_smi_line d) = true.
Proof.
  intros d Hn. unfold nvidia_smi_line. apply lacks_join; [reflexivity|].
  repeat constructor;
    try exact Hn;
    try (apply str_lacks; [reflexivity|discriminate]);
    apply show_reading_lacks; try reflexivity; discriminate.
Qed.

Lemma nvidia_smi_lines_parse :
  forall msd ds,
    Forall printable ds ->
    until_first_failure msd (map nvidia_smi_line ds)
    = (map metric_of_device ds, []).
Proof.
  intros msd ds H. induction H as [|d ds Hd Hds IH]; [reflexivity|].
  cbn [map until_first_failure].
  rewrite (nvidia_smi_line_device d (proj1 Hd)).
  rewrite (nvidia_smi_line_entry msd d Hd), IH. reflexivity.
Qed.

Lemma last_line_is_a_line :
  forall ds d,
    exists d', last (map nvidia_smi_line (d :: ds)) EmptyString
               = nvidia_smi_line d'.
Proof.
  induction ds as [|e ds IH]; intros d; [now exists d|].
  destruct (IH e) as [d' E]. exists d'. exact E.
Qed.

Lemma nvidia_smi_output_lines :
  forall ds tail,
    Forall printable ds -> ds <> [] -> blank tail = true ->
    split LF (strip (nvidia_smi_output ds ++ tail)) = map nvidia_smi_line ds.
Proof.
  intros ds tail H Hne Hb. unfold nvidia_smi_output.
  destruct ds as [|d ds]; [contradiction|]. cbn [map].
  rewrite strip_app_blank.
  - apply split_join_lines.
    change (nvidia_smi_line d :: map nvidia_smi_line ds)
      with (map nvidia_smi_line (d :: ds)).
    apply Forall_map. eapply Forall_impl; [|exact H].
    intros a (_ & Hl & _). now apply nvidia_smi_line_one_line.
  - apply starts_tight_join. exact (proj1 (nvidia_smi_line_tight d)).
  - apply ends_tight_join.
    change (nvidia_smi_line d :: map nvidia_smi_line ds)
      with (map nvidia_smi_line (d :: ds)).
    destruct (last_line_is_a_line ds d) as [d' E]. rewrite E.
    exact (proj2 (nvidia_smi_line_tight d')).
  - exact Hb.
Qed.

Lemma gpu_sampler_on_devices :
  forall msd w ds tail,
    Forall printable ds ->
    blank tail = true ->
    run_nvidia_smi w = completed 0 (nvidia_smi_output ds ++ tail) ->
    get_gpu_metrics msd w = Ok (map metric_of_device ds, []).
Proof.
  intros msd w ds tail H Hb R.
  rewrite (get_gpu_metrics_completed msd w _ R).
  destruct ds as [|d ds].
  - cbn [nvidia_smi_output map join append].
    rewrite (strip_blank tail Hb). reflexivity.
  - rewrite (nvidia_smi_output_lines (d :: ds) tail H ltac:(discriminate) Hb).
    now rewrite nvidia_smi_lines_parse.
Qed.

(** X9. The sampler reads back what the device-query command prints.  For
    devices whose names have no comma and no line feed and whose readings
    are of ordinary size, printed one per line with the six fields
    separated by a comma and a space, a missing reading as [[N/A]], and
    white space of any kind after the last line, the sampler returns one
    metric per device, in order: the index and the name (stripped) as they
    are, each reading or 0 where it is missing, the memory in GB with one
    decimal.  It prints nothing. *)
Theorem devices_read_back :
  forall (max_str_digits : Z) (w : world) (ds : list device) (tail : string),
    Forall printable ds ->
    blank tail = true ->
    run_nvidia_smi w = completed 0 (nvidia_smi_output ds ++ tail) ->
    get_gpu_metrics max_str_digits w = Ok (map metric_of_device ds, []).
Proof. exact gpu_sampler_on_devices. Qed.

Lemma devices_read_back_witness :
  Forall printable two_devices
  /\ blank (String LF EmptyString) = true
  /\ nvidia_smi_output two_devices ++ String LF EmptyString
     = two_lines "0, Tesla T4, 45, 2048, 16384, 60"
                 ("1, A100, [N/A], 512, [N/A], 33" ++ String LF EmptyString)
  /\ get_gpu_metrics 4300
       (gpu_world (nvidia_smi_output two_devices ++ String LF EmptyString))
     = Ok ([mkGpuMetric 0 "Tesla T4" 45 (Tenths 20) (Tenths 160) 60;
            mkGpuMetric 1 "A100" 0 (Tenths 5) (Int 0) 33], []).
Proof.
  assert (H : Forall printable two_devices).
  { repeat constructor; cbn; lia. }
  assert (Hb : blank (String LF EmptyString) = true) by reflexivity.
  split; [exact H|]. split; [exact Hb|]. split; [reflexivity|].
  exact (devices_read_back 4300
           (gpu_world (nvidia_smi_output two_devices ++ String LF EmptyString))
           two_devices (String LF EmptyString) H Hb eq_refl).
Defined.

(** ** More on the container counter *)

Lemma spaceless_lacks_LF : forall s, spaceless s = true -> lacks LF s = true.
Proof.
  induction s as [|x r IH]; intros H; [reflexivity|].
  apply spaceless_cons in H. destruct H as [Hx Hr].
  cbn [lacks]. rewrite (IH Hr).
  destruct (Ascii.eqb_spec x LF) as [->|_]; [|reflexivity].
  rewrite isspace_LF in Hx. discriminate.
Qed.

Lemma Forall_last :
  forall (P : string -> Prop) l x,
    Forall P (x :: l) -> P (last (x :: l) EmptyString).
Proof.
  intros P. induction l as [|y l IH]; intros x H.
  - now inversion H.
  - inversion H; subst. now apply IH.
Qed.

Lemma filter_truthy_ids :
  forall ids, Forall container_id ids -> filter truthy ids = ids.
Proof.
  intros ids H. induction H as [|x l [_ Hx] Hl IH]; [reflexivity|].
  cbn [filter]. destruct x; [contradiction|]. cbn [truthy]. now rewrite IH.
Qed.

Lemma container_count_on_ids :
  forall w ids tail,
    Forall container_id ids ->
    blank tail = true ->
    run_docker_ps w
    = completed 0 (join (String LF EmptyString) ids ++ tail) ->
    get_container_count w = Z.of_nat (List.length ids).
Proof.
  intros w ids tail H Hb R. unfold get_container_count, container_try.
  rewrite R. cbn [Z.eqb].
  destruct ids as [|x ids].
  - cbn [join append]. rewrite (strip_blank tail Hb). reflexivity.
  - rewrite strip_app_blank.
    + rewrite split_join_lines.
      * now rewrite filter_truthy_ids.
      * eapply Forall_impl; [|exact H].
        intros a [Ha _]. now apply spaceless_lacks_LF.
    + apply starts_tight_join. inversion H as [|? ? [Hs Hn] _]; subst.
      exact (proj1 (spaceless_tight x Hs Hn)).
    + apply ends_tight_join.
      destruct (Forall_last container_id ids x H) as [Hs Hn].
      exact (proj2 (spaceless_tight _ Hs Hn)).
    + exact Hb.
Qed.

(** X10. The counter counts what the container command lists: for
    container ids printed one per line, with white space of any kind after
    the last one, it returns the number of ids. *)
Theorem containers_counted :
  forall (w : world) (ids : list string) (tail : string),
    Forall container_id ids ->
    blank tail = true ->
    run_docker_ps w
    = completed 0 (join (String LF EmptyString) ids ++ tail) ->
    get_container_count w = Z.of_nat (List.length ids).
Proof. exact container_count_on_ids. Qed.

Lemma containers_counted_witness :
  Forall container_id ["3f2a9c01d7e4"; "b81c44e0a2f6"; "09d3e5a7c1b2"]
  /\ blank (String LF EmptyString) = true
  /\ get_container_count
       (example_world
          (run_raised FileNotFoundError)
          (completed 0 (join (String LF EmptyString)
                             ["3f2a9c01d7e4"; "b81c44e0a2f6"; "09d3e5a7c1b2"]
                        ++ String LF EmptyString)))
     = 3.
Proof.
  assert (H : Forall container_id
                     ["3f2a9c01d7e4"; "b81c44e0a2f6"; "09d3e5a7c1b2"]).
  { repeat constructor; discriminate. }
  assert (Hb : blank (String LF EmptyString) = true) by reflexivity.
  split; [exact H|]. split; [exact Hb|].
  exact (containers_counted
           (example_world
              (run_raised FileNotFoundError)
              (completed 0 (join (String LF EmptyString)
                                 ["3f2a9c01d7e4"; "b81c44e0a2f6";
                                  "09d3e5a7c1b2"]
                            ++ String LF EmptyString)))
           _ _ H Hb eq_refl).
Defined.

Lemma lstrip_not_blank :
  forall s, blank s = false ->
            exists c r, lstrip s = String c r /\ isspace c = false.
Proof.
  induction s as [|x r IH]; intros H; [discriminate|].
  cbn [blank] in H. cbn [lstrip]. destruct (isspace x) eqn:E.
  - apply IH. exact H.
  - now exists x, r.
Qed.

Lemma rstrip_keeps_head :
  forall c r, isspace c = false ->
              exists r', rstrip (String c r) = String c r'.
Proof.
  intros c r H. cbn [rstrip]. destruct (rstrip r) as [|y r'].
  - rewrite H. now exists EmptyString.
  - now exists (String y r').
Qed.

Lemma nonempty_lines_started : forall s, 1 <= nonempty_lines s true.
Proof.
  intros s. pose proof (nonempty_lines_split s true) as E.
  cbn [orb] in E. lia.
Qed.

(** X11. When the container command returns zero, the count is 0 exactly
    when its output is white space only, the empty output included: any
    other output counts at least one line. *)
Theorem no_container_iff_blank :
  forall (w : world) (stdout : string),
    run_docker_ps w = completed 0 stdout ->
    (get_container_count w = 0 <-> blank stdout = true).
Proof.
  intros w stdout R. unfold get_container_count, container_try.
  rewrite R. cbn [Z.eqb]. rewrite count_lines_scan. split.
  - intros H. destruct (blank stdout) eqn:B; [reflexivity|exfalso].
    destruct (lstrip_not_blank stdout B) as (c & r & E & Hc).
    unfold strip in H. rewrite E in H.
    destruct (rstrip_keeps_head c r Hc) as [r' E']. rewrite E' in H.
    cbn [nonempty_lines] in H.
    destruct (Ascii.eqb_spec c LF) as [->|_].
    + rewrite isspace_LF in Hc. discriminate.
    + pose proof (nonempty_lines_started r'). lia.
  - intros B. now rewrite (strip_blank stdout B).
Qed.

Lemma no_container_iff_blank_witness :
  run_docker_ps (example_world (run_raised FileNotFoundError)
                               (completed 0 (String LF EmptyString)))
  = completed 0 (String LF EmptyString)
  /\ (get_container_count
        (example_world (run_raised FileNotFoundError)
                       (completed 0 (String LF EmptyString))) = 0
      <-> blank (String LF EmptyString) = true).
Proof.
  split; [reflexivity|].
  exact (no_container_iff_blank
           (example_world (run_raised FileNotFoundError)
                          (completed 0 (String LF EmptyString)))
           (String LF EmptyString) eq_refl).
Defined.

(** ** The snapshot when the tools are missing *)

(** X12. A node without the two commands still answers.  When the system
    sampler returns, the device-query command fails and the container
    command does not return zero, the snapshot has the clock's time
    followed by [Z], the system figures, no GPU and no container, and GET
    [/metrics] and GET [/] both answer 200 with the JSON content type, the
    open CORS header and that snapshot as the body. *)
Theorem snapshot_without_tools :
  forall (max_str_digits : Z) (w : world) (sys : SystemMetrics),
    get_system_metrics w = Ok sys ->
    invocation_failed (run_nvidia_smi w) ->
    (forall stdout, run_docker_ps w <> completed 0 stdout) ->
    let snapshot :=
      mkSnapshot (utcnow_isoformat w ++ "Z") sys [] (mkContainers 0) in
    let answer :=
      [send_response 200;
       send_header "Content-Type" "application/json";
       send_header "Access-Control-Allow-Origin" "*";
       end_headers;
       wfile_write (json_dumps snapshot)] in
    exists out,
      collect_metrics max_str_digits w = Ok (snapshot, out)
      /\ handle_one_request max_str_digits w "GET" "/metrics"
         = Ok (answer, out)
      /\ handle_one_request max_str_digits w "GET" "/" = Ok (answer, out).
Proof.
  intros msd w sys Hs Hg Hd snapshot answer.
  assert (G : exists out, get_gpu_metrics msd w = Ok ([], out)).
  { unfold get_gpu_metrics, gpu_try.
    destruct (run_nvidia_smi w) as [e|rc stdout]; cbn in Hg.
    - rewrite Hg. now exists [e].
    - destruct (rc =? 0) eqn:E; [apply Z.eqb_eq in E; contradiction|].
      now exists []. }
  assert (D : get_container_count w = 0).
  { unfold get_container_count, container_try.
    destruct (run_docker_ps w) as [e|rc stdout] eqn:R; [reflexivity|].
    destruct (rc =? 0) eqn:E; [|reflexivity].
    apply Z.eqb_eq in E. subst rc. now destruct (Hd stdout). }
  destruct G as [out G]. exists out.
  assert (C : collect_metrics msd w = Ok (snapshot, out)).
  { unfold collect_metrics. rewrite Hs. cbn [bind]. rewrite G. cbn [bind].
    rewrite D. reflexivity. }
  split; [exact C|]. split; cbn; rewrite C; reflexivity.
Qed.

Lemma snapshot_without_tools_witness :
  get_system_metrics bare_world
  = Ok (mkSystemMetrics 12 (Tenths 30) (Tenths 80) (Tenths 93) (Tenths 931))
  /\ invocation_failed (run_nvidia_smi bare_world)
  /\ (forall stdout, run_docker_ps bare_world <> completed 0 stdout)
  /\ exists out,
      collect_metrics 4300 bare_world
      = Ok (mkSnapshot "2024-01-01T00:00:00Z"
                       (mkSystemMetrics 12 (Tenths 30) (Tenths 80)
                                        (Tenths 93) (Tenths 931))
                       [] (mkContainers 0), out).
Proof.
  assert (Hs : get_system_metrics bare_world
               = Ok (mkSystemMetrics 12 (Tenths 30) (Tenths 80)
                                     (Tenths 93) (Tenths 931)))
    by reflexivity.
  assert (Hg : invocation_failed (run_nvidia_smi bare_world)) by reflexivity.
  assert (Hd : forall stdout, run_docker_ps bare_world <> completed 0 stdout)
    by (intros stdout; discriminate).
  split; [exact Hs|]. split; [exact Hg|]. split; [exact Hd|].
  destruct (snapshot_without_tools 4300 bare_world _ Hs Hg Hd)
    as (out & C & _).
  exists out. exact C.
Defined.

(** ** The port *)

Lemma digitless_cons :
  forall c r, digitless (String c r) = true ->
              digit_value c = None /\ digitless r = true.
Proof.
  intros c r H. cbn [digitless] in H.
  destruct (digit_value c); [discriminate|now split].
Qed.

Lemma digits_digitless :
  forall s acc count, digitless s = true -> digits s acc count true = None.
Proof.
  intros [|c r] acc count H; [reflexivity|].
  apply digitless_cons in H. cbn [digits].
  destruct (Ascii.eqb c "_"); [reflexivity|]. now rewrite (proj1 H).
Qed.

Lemma digitless_int_lskip :
  forall s, digitless s = true -> digitless (int_lskip s) = true.
Proof.
  induction s as [|c r IH]; intros H; [reflexivity|].
  cbn [int_lskip]. destruct (int_isspace c); [|exact H].
  apply IH. exact (proj2 (digitless_cons c r H)).
Qed.

Lemma digitless_int_rskip :
  forall s, digitless s = true -> digitless (int_rskip s) = true.
Proof.
  induction s as [|c r IH]; intros H; [reflexivity|].
  destruct (digitless_cons c r H) as [Hc Hr]. specialize (IH Hr).
  cbn [int_rskip]. destruct (int_rskip r) as [|y r'].
  - destruct (int_isspace c); [reflexivity|].
    cbn [digitless]. now rewrite Hc.
  - cbn [digitless] in *. now rewrite Hc.
Qed.

(** A text without a decimal digit is no integer literal. *)
Lemma py_int_digitless :
  forall msd s, digitless s = true -> py_int msd s = Raise ValueError.
Proof.
  intros msd s H. unfold py_int.
  pose proof (digitless_int_rskip _ (digitless_int_lskip s H)) as T.
  destruct (int_rskip (int_lskip s)) as [|c r]; [reflexivity|].
  pose proof (proj2 (digitless_cons c r T)) as Hr.
  destruct c as [[] [] [] [] [] [] [] []]; cbv beta iota zeta;
    first [rewrite (digits_digitless _ 0 0 T)
          |rewrite (digits_digitless _ 0 0 Hr)]; reflexivity.
Qed.

(** X13. The port is 9100 when [METRICS_PORT] is not set.  When it holds
    the numeral of an integer, the port is that integer, whatever it is:
    nothing checks that it is a valid port number.  When it holds a text
    without any decimal digit, the empty text included, reading it raises
    [ValueError]: the default is not used in its place. *)
Theorem port_from_environment :
  forall (max_str_digits : Z),
    PORT max_str_digits None = Ok 9100
    /\ (forall n, short_numeral n ->
                  PORT max_str_digits (Some (str n)) = Ok n)
    /\ (forall s, digitless s = true ->
                  PORT max_str_digits (Some s) = Raise ValueError).
Proof.
  intros msd. split; [reflexivity|]. split.
  - intros n H. exact (py_int_str msd n H).
  - intros s H. exact (py_int_digitless msd s H).
Qed.

(** ** A whole request *)

(** X14. A GET of [/metrics] on a working node puts the three samplers
    together.  When the system sampler returns, the device-query command
    prints its devices and the container command its ids, the answer is
    200 with the JSON content type and the open CORS header, and its body
    is the snapshot made of the clock's time followed by [Z], the system
    figures, one metric per device in order and the number of ids; nothing
    is printed. *)
Theorem metrics_request_on_working_node :
  forall (max_str_digits : Z) (w : world) (sys : SystemMetrics)
         (ds : list device) (ids : list string) (tail1 tail2 : string),
    get_system_metrics w = Ok sys ->
    Forall printable ds ->
    Forall container_id ids ->
    blank tail1 = true ->
    blank tail2 = true ->
    run_nvidia_smi w = completed 0 (nvidia_smi_output ds ++ tail1) ->
    run_docker_ps w
    = completed 0 (join (String LF EmptyString) ids ++ tail2) ->
    handle_one_request max_str_digits w "GET" "/metrics"
    = Ok ([send_response 200;
           send_header "Content-Type" "application/json";
           send_header "Access-Control-Allow-Origin" "*";
           end_headers;
           wfile_write
             (json_dumps
                (mkSnapshot (utcnow_isoformat w ++ "Z") sys
                            (map metric_of_device ds)
                            (mkContainers (Z.of_nat (List.length ids)))))],
          []).
Proof.
  intros msd w sys ds ids tail1 tail2 Hs Hd Hi Hb1 Hb2 R1 R2.
  cbn. unfold collect_metrics. rewrite Hs. cbn [bind].
  rewrite (gpu_sampler_on_devices msd w ds tail1 Hd Hb1 R1). cbn [bind].
  rewrite (container_count_on_ids w ids tail2 Hi Hb2 R2). reflexivity.
Qed.

Lemma metrics_request_on_working_node_witness :
  get_system_metrics busy_world
  = Ok (mkSystemMetrics 12 (Tenths 30) (Tenths 80) (Tenths 93) (Tenths 931))
  /\ Forall printable two_devices
  /\ Forall container_id ["3f2a9c01d7e4"; "b81c44e0a2f6"; "09d3e5a7c1b2"]
  /\ handle_one_request 4300 busy_world "GET" "/metrics"
     = Ok ([send_response 200;
            send_header "Content-Type" "application/json";
            send_header "Access-Control-Allow-Origin" "*";
            end_headers;
            wfile_write
              (json_dumps
                 (mkSnapshot
                    "2024-01-01T00:00:00Z"
                    (mkSystemMetrics 12 (Tenths 30) (Tenths 80)
                                     (Tenths 93) (Tenths 931))
                    [mkGpuMetric 0 "Tesla T4" 45 (Tenths 20) (Tenths 160) 60;
                     mkGpuMetric 1 "A100" 0 (Tenths 5) (Int 0) 33]
                    (mkContainers 3)))],
           []).
Proof.
  assert (Hs : get_system_metrics busy_world
               = Ok (mkSystemMetrics 12 (Tenths 30) (Tenths 80)
                                     (Tenths 93) (Tenths 931)))
    by reflexivity.
  assert (Hd : Forall printable two_devices).
  { repeat constructor; cbn; lia. }
  assert (Hi : Forall container_id
                      ["3f2a9c01d7e4"; "b81c44e0a2f6"; "09d3e5a7c1b2"]).
  { repeat constructor; discriminate. }
  split; [exact Hs|]. split; [exact Hd|]. split; [exact Hi|].
  exact (metrics_request_on_working_node 4300 busy_world _ two_devices _
           (String LF EmptyString) (String LF EmptyString)
           Hs Hd Hi eq_refl eq_refl eq_refl eq_refl).
Defined.
